(** * VectorDBBench: the LanceDB and LanceDB Cloud client adapters

    A shallow embedding of
    [vectordb_bench/backend/clients/lancedb/{config,lancedb}.py] and
    [vectordb_bench/backend/clients/lancedb_cloud/{config,lancedb_cloud}.py].

    Python values that cross the adapter boundary are modelled by small
    inductive types, dictionaries by [gmap string _], and the methods by a
    state-and-exception monad whose state holds the adapter object, the
    state of the external vector store, the log of the calls issued to it,
    and the lines written to stdout and to the module logger. *)

From Stdlib Require Import ZArith String List.
From Stdlib Require Import Floats.PrimFloat.
From stdpp Require Import base option gmap strings list fin_maps pretty.

Open Scope Z_scope.
Open Scope string_scope.

(** ** Python values and dictionaries *)

(** The scalar values the adapters read from or write into dictionaries:
    [None], an [int], a [str]. *)
Inductive PyVal : Type :=
| VNone
| VInt (z : Z)
| VStr (s : string).

#[global] Instance PyVal_eq_dec : EqDecision PyVal.
Proof. solve_decision. Defined.

(** [str(v)], as an f-string or [print] renders a value. *)
Definition py_str (v : PyVal) : string :=
  match v with
  | VNone => "None"
  | VInt z => pretty z
  | VStr s => s
  end.

(** [int | None] field to Python value. *)
Definition of_opt_int (o : option Z) : PyVal :=
  match o with
  | Some z => VInt z
  | None => VNone
  end.

(** [d.get(key)]: the value under [key], [None] when the key is missing. *)
Definition dict_get (d : gmap string PyVal) (key : string) : PyVal :=
  default VNone (d !! key).

(** Truth value of a [dict | None] argument: [None] and the empty
    dictionary are false. *)
Definition truthy (filters : option (gmap string PyVal)) : bool :=
  match filters with
  | None => false
  | Some d => negb (bool_decide (d = ∅))
  end.

(** ** Exceptions and results *)

(** An exception instance: its class name and [str(e)].  Every exception of
    the model is an instance of [Exception]. *)
Record PyExn : Type := Exn { exn_class : string; exn_msg : string }.

#[global] Instance PyExn_eq_dec : EqDecision PyExn.
Proof. solve_decision. Defined.

(** What a failed bare [assert] raises. *)
Definition AssertionError : PyExn := Exn "AssertionError" "".

Definition AttributeError (msg : string) : PyExn := Exn "AttributeError" msg.

(** [obj.attr] on an instance of class [cls] that has no such attribute. *)
Definition no_attribute (cls attr : string) : PyExn :=
  AttributeError ("'" +:+ cls +:+ "' object has no attribute '" +:+ attr +:+ "'").

Inductive result (A : Type) : Type :=
| Ok (a : A)
| Raise (e : PyExn).
Arguments Ok {A} a.
Arguments Raise {A} e.

(** An instance attribute: never assigned (or deleted by [del]), or bound. *)
Inductive Attr (A : Type) : Type :=
| Unbound
| Bound (a : A).
Arguments Unbound {A}.
Arguments Bound {A} a.

(** ** The state-and-exception monad

    A raised exception keeps the state reached so far: Python does not roll
    back assignments or remote calls. *)
Definition SE (S A : Type) : Type := S → result A * S.

#[global] Instance SE_ret {S} : MRet (SE S) := λ A a s, (Ok a, s).

#[global] Instance SE_bind {S} : MBind (SE S) := λ A B f m s,
  match m s with
  | (Ok a, s') => f a s'
  | (Raise e, s') => (Raise e, s')
  end.

Definition raise_ {S A} (e : PyExn) : SE S A := λ s, (Raise e, s).

Definition gets {S A} (f : S → A) : SE S A := λ s, (Ok (f s), s).

Definition modify {S} (f : S → S) : SE S unit := λ s, (Ok (), f s).

(** [assert cond]. *)
Definition assert_ {S} (cond : bool) : SE S unit :=
  if cond then mret () else raise_ AssertionError.

(** [try: body / except Exception as e: handler e]. *)
Definition try_except {S A} (body : SE S A) (handler : PyExn → SE S A) : SE S A := λ s,
  match body s with
  | (Ok a, s') => (Ok a, s')
  | (Raise e, s') => handler e s'
  end.

(** A lifted pure computation that may raise. *)
Definition lift_result {S A} (r : result A) : SE S A := λ s, (r, s).

(** A generator function with one bare [yield], not enclosed in any [try],
    decorated with [contextlib.contextmanager]. *)
Record GeneratorContextManager (S : Type) : Type := {
  before_yield : SE S unit;
  after_yield : SE S unit
}.
Arguments before_yield {S} _.
Arguments after_yield {S} _.

(** [with cm: body].  [__enter__] runs the generator up to its [yield].  On
    a normal end of the body, [__exit__] resumes the generator, which runs
    the statements after the [yield].  When the body raises, [__exit__]
    throws the exception into the generator at the [yield]; no [try]
    encloses it, so the generator ends there, the statements after the
    [yield] are skipped and the exception continues to the caller. *)
Definition with_ {S A} (cm : GeneratorContextManager S) (body : SE S A) : SE S A := λ s,
  match before_yield cm s with
  | (Raise e, s1) => (Raise e, s1)
  | (Ok _, s1) =>
      match body s1 with
      | (Raise e, s2) => (Raise e, s2)
      | (Ok a, s2) =>
          match after_yield cm s2 with
          | (Raise e, s3) => (Raise e, s3)
          | (Ok _, s3) => (Ok a, s3)
          end
      end
  end.

(** ** Metric types *)

(** Modelled from the spec: the [MetricType] enumeration of [..api], which
    is not among the sources.  The spec names L2, InnerProduct ([IP] in the
    code) and Cosine; [OTHER] stands for any further member the enumeration
    may declare. *)
Inductive MetricType : Type :=
| L2
| IP
| COSINE
| OTHER (name : string).

#[global] Instance MetricType_eq_dec : EqDecision MetricType.
Proof. solve_decision. Defined.

(** ** Data exchanged with the vector store *)

(** [pyarrow] data types used by the schema. *)
Inductive ArrowType : Type :=
| int32
| float32
| list_ (value_type : ArrowType) (list_size : Z).

Definition Schema : Type := list (string * ArrowType).

(** A value of an inserted record: an embedding or an id. *)
Inductive Cell : Type :=
| CVector (v : list float)
| CInt (i : Z).

(** One step of the query builder chain that follows [tbl.search(query)]. *)
Inductive QueryStep : Type :=
| QMetric (m : PyVal)
| QNprobes (n : PyVal)
| QRefineFactor (r : PyVal)
| QLimit (k : Z)
| QSelect (columns : list string)
| QWhere (expr : string).

(** A call on the [lancedb] client, with its arguments.  A query is logged
    when [to_arrow()] runs it, with the vector given to [search] and the
    builder steps in the order they were chained. *)
Inductive Call : Type :=
| CConnect (uri : PyVal) (kwargs : list (string * PyVal))
| CTableNames
| CDropTable (name : string)
| CCreateTable (name : string) (schema : Schema)
| COpenTable (name : string)
| CAdd (rows : list (gmap string Cell))
| CCreateIndex (metric num_partitions num_sub_vectors : PyVal)
| CToArrow (query : list float) (steps : list QueryStep).

(** The external vector-store client ([lancedb] and the [pyarrow] table it
    answers with).  Every operation acts on the state of the store and may
    raise. *)
Record Collaborator : Type := {
  Store : Type;
  Conn : Type;
  Table : Type;
  Arrow : Type;
  connect : PyVal → list (string * PyVal) → Store → result Conn * Store;
  table_names : Conn → Store → result (list string) * Store;
  drop_table : Conn → string → Store → result unit * Store;
  create_table : Conn → string → Schema → Store → result unit * Store;
  open_table : Conn → string → Store → result Table * Store;
  add : Table → list (gmap string Cell) → Store → result unit * Store;
  create_index : Table → PyVal → PyVal → PyVal → Store → result unit * Store;
  to_arrow : Table → list float → list QueryStep → Store → result Arrow * Store;
  column_to_pylist : Arrow → string → result (list PyVal)
}.

(** What the program can observe or change outside the adapter object. *)
Record World (C : Collaborator) : Type := {
  store : Store C;
  calls : list Call;
  stdout : list string;
  log_info : list string
}.
Arguments store {C} _.
Arguments calls {C} _.
Arguments stdout {C} _.
Arguments log_info {C} _.

Section Client.
Context {C : Collaborator}.

(** Issue the call [c], implemented by [op], and log it. *)
Definition invoke {R} (c : Call) (op : Store C → result R * Store C) : SE (World C) R := λ w,
  let '(r, st) := op (store w) in
  (r, {| store := st; calls := calls w ++ [c]; stdout := stdout w; log_info := log_info w |}).

(** [lancedb.connect(uri, **kwargs)]. *)
Definition lancedb_connect (uri : PyVal) (kwargs : list (string * PyVal)) : SE (World C) (Conn C) :=
  invoke (CConnect uri kwargs) (connect C uri kwargs).

(** [db.table_names()]. *)
Definition db_table_names (db : Conn C) : SE (World C) (list string) :=
  invoke CTableNames (table_names C db).

(** [db.drop_table(name)]. *)
Definition db_drop_table (db : Conn C) (name : string) : SE (World C) unit :=
  invoke (CDropTable name) (drop_table C db name).

(** [db.create_table(name, schema=schema)]; the table it returns is not used. *)
Definition db_create_table (db : Conn C) (name : string) (schema : Schema) : SE (World C) unit :=
  invoke (CCreateTable name schema) (create_table C db name schema).

(** [db.open_table(name)]. *)
Definition db_open_table (db : Conn C) (name : string) : SE (World C) (Table C) :=
  invoke (COpenTable name) (open_table C db name).

(** [tbl.add(rows)]. *)
Definition tbl_add (t : Table C) (rows : list (gmap string Cell)) : SE (World C) unit :=
  invoke (CAdd rows) (add C t rows).

(** [tbl.create_index(metric, num_partitions=..., num_sub_vectors=...)]. *)
Definition tbl_create_index (t : Table C) (metric num_partitions num_sub_vectors : PyVal)
  : SE (World C) unit :=
  invoke (CCreateIndex metric num_partitions num_sub_vectors)
         (create_index C t metric num_partitions num_sub_vectors).

(** [tbl.search(query). ... .to_arrow()] with the builder steps in between. *)
Definition tbl_search_to_arrow (t : Table C) (query : list float) (steps : list QueryStep)
  : SE (World C) (Arrow C) :=
  invoke (CToArrow query steps) (to_arrow C t query steps).

(** [print(line)]. *)
Definition print (line : string) : SE (World C) unit :=
  modify (λ w, {| store := store w; calls := calls w;
                  stdout := stdout w ++ [line]; log_info := log_info w |}).

(** [log.info(line)]. *)
Definition log_info_ (line : string) : SE (World C) unit :=
  modify (λ w, {| store := store w; calls := calls w;
                  stdout := stdout w; log_info := log_info w ++ [line] |}).

(** Run a computation on the world from inside a method, whose state also
    holds [self]. *)
Definition in_world {Obj A} (m : SE (World C) A) : SE (Obj * World C) A := λ s,
  let '(r, w) := m s.2 in (r, (s.1, w)).

(** [obj.name] where [obj] is [self.tbl]: the handle, or the
    [AttributeError] of [None]. *)
Definition method_of {S} (obj : option (Table C)) (name : string) : SE S (Table C) :=
  match obj with
  | Some t => mret t
  | None => raise_ (no_attribute "NoneType" name)
  end.

(** What a search does once its chain is fixed: run the query on the
    handle, log it, and read the column [scalar_field] of the answer. *)
Definition run_query {Obj} (self : Obj) (w : World C) (h : Table C) (query : list float)
    (steps : list QueryStep) (scalar_field : string)
  : result (list PyVal) * (Obj * World C) :=
  let '(r, st) := to_arrow C h query steps (store w) in
  (match r with
   | Ok res => column_to_pylist C res scalar_field
   | Raise e => Raise e
   end,
   (self, {| store := st; calls := calls w ++ [CToArrow query steps];
             stdout := stdout w; log_info := log_info w |})).
End Client.

(** ** [lancedb/config.py] and [lancedb/lancedb.py] *)

Module lancedb.

(** [LanceDBConfig]: the connection settings. *)
Record LanceDBConfig : Type := { uri : string }.

Definition LanceDBConfig_default : LanceDBConfig := {| uri := "data/vector-lancedb" |}.

Definition to_dict (self : LanceDBConfig) : gmap string PyVal :=
  {[ "uri" := VStr (uri self) ]}.

(** [LanceDBIndexConfig]: the index and search knobs of a benchmark case. *)
Record LanceDBIndexConfig : Type := {
  metric_type : option MetricType;
  num_partitions : option Z;
  num_sub_vectors : option Z;
  nprobes : option Z;
  refine_factor : option Z
}.

Definition LanceDBIndexConfig_default : LanceDBIndexConfig :=
  {| metric_type := None; num_partitions := Some 256; num_sub_vectors := Some 96;
     nprobes := Some 0; refine_factor := Some 0 |}.

Definition parse_metric (self : LanceDBIndexConfig) : string :=
  if bool_decide (metric_type self = Some L2) then "L2"
  else if bool_decide (metric_type self = Some IP) then "dot"
  else "cosine".

Definition index_param (self : LanceDBIndexConfig) : gmap string PyVal :=
  <[ "num_sub_vectors" := of_opt_int (num_sub_vectors self) ]>
  (<[ "num_partitions" := of_opt_int (num_partitions self) ]>
  (<[ "metric" := VStr (parse_metric self) ]> ∅)).

Definition search_param (self : LanceDBIndexConfig) : gmap string PyVal :=
  <[ "refine_factor" := of_opt_int (refine_factor self) ]>
  (<[ "nprobes" := of_opt_int (nprobes self) ]>
  (<[ "metric" := VStr (parse_metric self) ]> ∅)).

(** The builder chain of an unfiltered search, from [search_param()]. *)
Definition unfiltered_steps (cfg : LanceDBIndexConfig) (k : Z) (scalar_field : string)
  : list QueryStep :=
  [ QMetric (dict_get (search_param cfg) "metric");
    QNprobes (dict_get (search_param cfg) "nprobes");
    QRefineFactor (dict_get (search_param cfg) "refine_factor");
    QLimit k; QSelect [scalar_field] ].

(** The builder chain of a search filtered by the dictionary [d]. *)
Definition filtered_steps (cfg : LanceDBIndexConfig) (k : Z) (scalar_field : string)
    (d : gmap string PyVal) : list QueryStep :=
  [ QMetric (dict_get (index_param cfg) "metric");
    QLimit k; QSelect [scalar_field];
    QWhere (scalar_field +:+ " " +:+ py_str (dict_get d "metadata")) ].

Section Adapter.
Context {C : Collaborator}.

(** The [LanceDB] object.  [__init__] assigns every attribute but [tbl],
    which only [init] binds; the base class [VectorDB] of [..api], not among
    the sources, is taken to declare no attribute of that name. *)
Record LanceDB : Type := {
  collection_name : string;
  db_config : gmap string PyVal;
  case_config : option LanceDBIndexConfig;
  _scalar_field : string;
  _vector_field : string;
  tbl : Attr (option (Table C))
}.

(** The state a method runs in: [self] and the world. *)
Definition M (A : Type) : Type := SE (LanceDB * World C) A.

Definition get_self : M LanceDB := gets fst.

(** [self] with its attribute [tbl] rebound (or unbound). *)
Definition with_tbl (self : LanceDB) (v : Attr (option (Table C))) : LanceDB :=
  {| collection_name := collection_name self; db_config := db_config self;
     case_config := case_config self; _scalar_field := _scalar_field self;
     _vector_field := _vector_field self; tbl := v |}.

(** [self.tbl = v]. *)
Definition set_tbl (v : option (Table C)) : M unit :=
  modify (λ s, (with_tbl s.1 (Bound v), s.2)).

(** [del(self.tbl)]. *)
Definition del_tbl : M unit := λ s,
  match tbl s.1 with
  | Unbound => (Raise (no_attribute "LanceDB" "tbl"), s)
  | Bound _ => (Ok (), (with_tbl s.1 Unbound, s.2))
  end.

(** Reading [self.tbl]. *)
Definition get_tbl : M (option (Table C)) :=
  self ← get_self;
  match tbl self with
  | Unbound => raise_ (no_attribute "LanceDB" "tbl")
  | Bound v => mret v
  end.

(** [self.case_config.index_param().get(key)]. *)
Definition index_param_get (key : string) : M PyVal :=
  self ← get_self;
  match case_config self with
  | None => raise_ (no_attribute "NoneType" "index_param")
  | Some cfg => mret (dict_get (index_param cfg) key)
  end.

(** [self.case_config.search_param().get(key)]. *)
Definition search_param_get (key : string) : M PyVal :=
  self ← get_self;
  match case_config self with
  | None => raise_ (no_attribute "NoneType" "search_param")
  | Some cfg => mret (dict_get (search_param cfg) key)
  end.

(** [LanceDB(dim, db_config, db_case_config, collection_name, drop_old)]:
    the body of [__init__], returning the object it initialised. *)
Definition __init__ (dim : Z) (db_config : gmap string PyVal)
    (db_case_config : option LanceDBIndexConfig)
    (collection_name : string) (drop_old : bool) : SE (World C) LanceDB :=
  let self := {| collection_name := collection_name; db_config := db_config;
                 case_config := db_case_config; _scalar_field := "id";
                 _vector_field := "vector"; tbl := Unbound |} in
  db ← lancedb_connect (dict_get db_config "uri") [];
  drop ← (if drop_old
          then names ← db_table_names db; mret (bool_decide (collection_name ∈ names))
          else mret false);
  (if drop : bool then db_drop_table db collection_name else mret ());;
  names ← db_table_names db;
  (if negb (bool_decide (collection_name ∈ names))
   then
     let schema := [ (_scalar_field self, int32);
                     (_vector_field self, list_ float32 dim) ] in
     db_create_table db collection_name schema
   else mret ());;
  mret self.

(** [init], the generator behind [with self.init():]. *)
Definition init : GeneratorContextManager (LanceDB * World C) := {|
  before_yield :=
    set_tbl None;;
    self ← get_self;
    db ← in_world (lancedb_connect (dict_get (db_config self) "uri") []);
    t ← in_world (db_open_table db (collection_name self));
    set_tbl (Some t);
  after_yield :=
    set_tbl None;;
    del_tbl
|}.

Definition ready_to_load : M unit := mret ().

Definition optimize : M unit :=
  t ← get_tbl;
  assert_ (bool_decide (t ≠ None));;
  metric ← index_param_get "metric";
  in_world (print (py_str metric));;
  t ← get_tbl;
  h ← method_of t "create_index";
  metric ← index_param_get "metric";
  num_partitions ← index_param_get "num_partitions";
  num_sub_vectors ← index_param_get "num_sub_vectors";
  in_world (tbl_create_index h metric num_partitions num_sub_vectors).

Definition ready_to_search : M unit := mret ().

(** The batch handed to [tbl.add]: one dictionary per pair of
    [zip(embeddings, metadata)], the embedding under [_vector_field] and the
    id under [_scalar_field]. *)
Definition records (self : LanceDB) (embeddings : list (list float)) (metadata : list Z)
  : list (gmap string Cell) :=
  (λ e, <[ _scalar_field self := CInt e.2 ]> (<[ _vector_field self := CVector e.1 ]> ∅))
    <$> zip embeddings metadata.

(** Whether [self.tbl] holds a table handle. *)
Definition scope_open (self : LanceDB) : bool :=
  match tbl self with
  | Bound (Some _) => true
  | _ => false
  end.

Definition insert_embeddings (embeddings : list (list float)) (metadata : list Z)
  : M (Z * option PyExn) :=
  t ← get_tbl;
  assert_ (bool_decide (t ≠ None));;
  assert_ (bool_decide (length embeddings = length metadata));;
  failed ← try_except
    (t ← get_tbl;
     h ← method_of t "add";
     self ← get_self;
     in_world (tbl_add h (records self embeddings metadata));;
     mret None)
    (λ e,
     in_world (log_info_ ("Failed to insert data: " +:+ exn_msg e));;
     mret (Some (0, Some e)));
  match failed with
  | Some returned => mret returned
  | None => mret (Z.of_nat (length embeddings), None)
  end.

Definition search_embedding (query : list float) (k : Z)
    (filters : option (gmap string PyVal)) : M (list PyVal) :=
  self ← get_self;
  res ← (if truthy filters
         then
           let expr := _scalar_field self +:+ " " +:+
                       py_str (dict_get (default ∅ filters) "metadata") in
           t ← get_tbl;
           h ← method_of t "search";
           metric ← index_param_get "metric";
           in_world (tbl_search_to_arrow h query
             [QMetric metric; QLimit k; QSelect [_scalar_field self]; QWhere expr])
         else
           t ← get_tbl;
           h ← method_of t "search";
           metric ← search_param_get "metric";
           nprobes ← search_param_get "nprobes";
           refine_factor ← search_param_get "refine_factor";
           in_world (tbl_search_to_arrow h query
             [QMetric metric; QNprobes nprobes; QRefineFactor refine_factor;
              QLimit k; QSelect [_scalar_field self]]));
  lift_result (column_to_pylist C res (_scalar_field self)).

End Adapter.
Arguments LanceDB : clear implicits.

End lancedb.

(** ** [lancedb_cloud/config.py] and [lancedb_cloud/lancedb_cloud.py] *)

Module lancedb_cloud.

(** [LanceDBCloudConfig]: the connection settings of the managed service. *)
Record LanceDBCloudConfig : Type := { uri : string; api_key : string; region : string }.

Definition to_dict (self : LanceDBCloudConfig) : gmap string PyVal :=
  <[ "region" := VStr (region self) ]>
  (<[ "api_key" := VStr (api_key self) ]>
  (<[ "uri" := VStr (uri self) ]> ∅)).

(** [LanceDBCloudIndexConfig]: as the local one, without a refine factor. *)
Record LanceDBCloudIndexConfig : Type := {
  metric_type : option MetricType;
  num_partitions : option Z;
  num_sub_vectors : option Z;
  nprobes : option Z
}.

Definition LanceDBCloudIndexConfig_default : LanceDBCloudIndexConfig :=
  {| metric_type := None; num_partitions := Some 256; num_sub_vectors := Some 96;
     nprobes := Some 0 |}.

Definition parse_metric (self : LanceDBCloudIndexConfig) : string :=
  if bool_decide (metric_type self = Some L2) then "L2"
  else if bool_decide (metric_type self = Some IP) then "dot"
  else "cosine".

Definition index_param (self : LanceDBCloudIndexConfig) : gmap string PyVal :=
  <[ "num_sub_vectors" := of_opt_int (num_sub_vectors self) ]>
  (<[ "num_partitions" := of_opt_int (num_partitions self) ]>
  (<[ "metric" := VStr (parse_metric self) ]> ∅)).

Definition search_param (self : LanceDBCloudIndexConfig) : gmap string PyVal :=
  <[ "nprobes" := of_opt_int (nprobes self) ]>
  (<[ "metric" := VStr (parse_metric self) ]> ∅).

(** The builder chain of an unfiltered search: of [search_param()] only the
    metric is used. *)
Definition unfiltered_steps (cfg : LanceDBCloudIndexConfig) (k : Z) (scalar_field : string)
  : list QueryStep :=
  [ QMetric (dict_get (search_param cfg) "metric");
    QLimit k; QSelect [scalar_field] ].

(** The builder chain of a search filtered by the dictionary [d]. *)
Definition filtered_steps (cfg : LanceDBCloudIndexConfig) (k : Z) (scalar_field : string)
    (d : gmap string PyVal) : list QueryStep :=
  [ QMetric (dict_get (index_param cfg) "metric");
    QLimit k; QSelect [scalar_field];
    QWhere (scalar_field +:+ " " +:+ py_str (dict_get d "metadata")) ].

Section Adapter.
Context {C : Collaborator}.

(** The [LanceDBCloud] object.  [__init__] assigns every attribute but
    [tbl], which only [init] binds; the base class [VectorDB] of [..api],
    not among the sources, is taken to declare no attribute of that name. *)
Record LanceDBCloud : Type := {
  collection_name : string;
  db_config : gmap string PyVal;
  case_config : option LanceDBCloudIndexConfig;
  _scalar_field : string;
  _vector_field : string;
  tbl : Attr (option (Table C))
}.

Definition M (A : Type) : Type := SE (LanceDBCloud * World C) A.

Definition get_self : M LanceDBCloud := gets fst.

(** [self] with its attribute [tbl] rebound (or unbound). *)
Definition with_tbl (self : LanceDBCloud) (v : Attr (option (Table C))) : LanceDBCloud :=
  {| collection_name := collection_name self; db_config := db_config self;
     case_config := case_config self; _scalar_field := _scalar_field self;
     _vector_field := _vector_field self; tbl := v |}.

(** [self.tbl = v]. *)
Definition set_tbl (v : option (Table C)) : M unit :=
  modify (λ s, (with_tbl s.1 (Bound v), s.2)).

(** [del(self.tbl)]. *)
Definition del_tbl : M unit := λ s,
  match tbl s.1 with
  | Unbound => (Raise (no_attribute "LanceDBCloud" "tbl"), s)
  | Bound _ => (Ok (), (with_tbl s.1 Unbound, s.2))
  end.

(** Reading [self.tbl]. *)
Definition get_tbl : M (option (Table C)) :=
  self ← get_self;
  match tbl self with
  | Unbound => raise_ (no_attribute "LanceDBCloud" "tbl")
  | Bound v => mret v
  end.

(** [self.case_config.index_param().get(key)]. *)
Definition index_param_get (key : string) : M PyVal :=
  self ← get_self;
  match case_config self with
  | None => raise_ (no_attribute "NoneType" "index_param")
  | Some cfg => mret (dict_get (index_param cfg) key)
  end.

(** [self.case_config.search_param().get(key)]. *)
Definition search_param_get (key : string) : M PyVal :=
  self ← get_self;
  match case_config self with
  | None => raise_ (no_attribute "NoneType" "search_param")
  | Some cfg => mret (dict_get (search_param cfg) key)
  end.

(** The keyword arguments both [connect] calls pass. *)
Definition connect_kwargs (db_config : gmap string PyVal) : list (string * PyVal) :=
  [ ("api_key", dict_get db_config "api_key"); ("region", dict_get db_config "region") ].

(** [LanceDBCloud(dim, db_config, db_case_config, collection_name, drop_old)]:
    the body of [__init__], returning the object it initialised.  The test
    on [drop_old] is commented out in the source: [drop_old] is not read. *)
Definition __init__ (dim : Z) (db_config : gmap string PyVal)
    (db_case_config : option LanceDBCloudIndexConfig)
    (collection_name : string) (drop_old : bool) : SE (World C) LanceDBCloud :=
  let self := {| collection_name := collection_name; db_config := db_config;
                 case_config := db_case_config; _scalar_field := "id";
                 _vector_field := "vector"; tbl := Unbound |} in
  db ← lancedb_connect (dict_get db_config "uri") (connect_kwargs db_config);
  db_drop_table db collection_name;;
  names ← db_table_names db;
  (if negb (bool_decide (collection_name ∈ names))
   then
     let schema := [ (_scalar_field self, int32);
                     (_vector_field self, list_ float32 dim) ] in
     db_create_table db collection_name schema
   else mret ());;
  mret self.

(** [init], the generator behind [with self.init():].  After the [yield]
    the source also rebinds and deletes its local variable [db], which
    changes nothing outside the generator. *)
Definition init : GeneratorContextManager (LanceDBCloud * World C) := {|
  before_yield :=
    set_tbl None;;
    self ← get_self;
    db ← in_world (lancedb_connect (dict_get (db_config self) "uri")
                                   (connect_kwargs (db_config self)));
    t ← in_world (db_open_table db (collection_name self));
    set_tbl (Some t);
  after_yield :=
    set_tbl None;;
    del_tbl
|}.

Definition ready_to_load : M unit := mret ().

(** The [create_index] call is commented out in the source. *)
Definition optimize : M unit :=
  in_world (print "here at optimize");;
  t ← get_tbl;
  assert_ (bool_decide (t ≠ None));;
  metric ← index_param_get "metric";
  in_world (print (py_str metric));;
  in_world (print "got here").

Definition ready_to_search : M unit := mret ().

(** The batch handed to [tbl.add]: one dictionary per pair of
    [zip(embeddings, metadata)], the embedding under [_vector_field] and the
    id under [_scalar_field]. *)
Definition records (self : LanceDBCloud) (embeddings : list (list float)) (metadata : list Z)
  : list (gmap string Cell) :=
  (λ e, <[ _scalar_field self := CInt e.2 ]> (<[ _vector_field self := CVector e.1 ]> ∅))
    <$> zip embeddings metadata.

(** Whether [self.tbl] holds a table handle. *)
Definition scope_open (self : LanceDBCloud) : bool :=
  match tbl self with
  | Bound (Some _) => true
  | _ => false
  end.

Definition insert_embeddings (embeddings : list (list float)) (metadata : list Z)
  : M (Z * option PyExn) :=
  t ← get_tbl;
  assert_ (bool_decide (t ≠ None));;
  assert_ (bool_decide (length embeddings = length metadata));;
  failed ← try_except
    (t ← get_tbl;
     h ← method_of t "add";
     self ← get_self;
     in_world (tbl_add h (records self embeddings metadata));;
     mret None)
    (λ e,
     in_world (log_info_ ("Failed to insert data: " +:+ exn_msg e));;
     mret (Some (0, Some e)));
  match failed with
  | Some returned => mret returned
  | None => mret (Z.of_nat (length embeddings), None)
  end.

(** The [nprobes] step is commented out in the source. *)
Definition search_embedding (query : list float) (k : Z)
    (filters : option (gmap string PyVal)) : M (list PyVal) :=
  self ← get_self;
  res ← (if truthy filters
         then
           let expr := _scalar_field self +:+ " " +:+
                       py_str (dict_get (default ∅ filters) "metadata") in
           t ← get_tbl;
           h ← method_of t "search";
           metric ← index_param_get "metric";
           in_world (tbl_search_to_arrow h query
             [QMetric metric; QLimit k; QSelect [_scalar_field self]; QWhere expr])
         else
           t ← get_tbl;
           h ← method_of t "search";
           metric ← search_param_get "metric";
           in_world (tbl_search_to_arrow h query
             [QMetric metric; QLimit k; QSelect [_scalar_field self]]));
  lift_result (column_to_pylist C res (_scalar_field self)).

End Adapter.
Arguments LanceDBCloud : clear implicits.

End lancedb_cloud.

(** ** An in-memory stand-in for the vector store

    Used to run the adapters on concrete inputs.  It keeps the tables and
    their rows, answers a query with the stored rows in insertion order
    (it does not rank and does not evaluate predicates), and can be told to
    fail every batch insert. *)

Module memdb.

Record MemTable : Type := {
  schema : Schema;
  rows : list (gmap string Cell);
  index : option (PyVal * PyVal * PyVal)
}.

Record MemStore : Type := {
  tables : list (string * MemTable);
  add_error : option PyExn
}.

(** The table stored under [name], if any. *)
Fixpoint find_table (name : string) (ts : list (string * MemTable)) : option MemTable :=
  match ts with
  | [] => None
  | (n, tb) :: rest => if String.eqb n name then Some tb else find_table name rest
  end.

(** The tables without the one stored under [name]. *)
Fixpoint remove_table (name : string) (ts : list (string * MemTable))
  : list (string * MemTable) :=
  match ts with
  | [] => []
  | (n, tb) :: rest =>
      if String.eqb n name then remove_table name rest else (n, tb) :: remove_table name rest
  end.

(** The tables with [tb] stored under [name], in the place of the table
    that had the name, or at the end. *)
Fixpoint put_table (name : string) (tb : MemTable) (ts : list (string * MemTable))
  : list (string * MemTable) :=
  match ts with
  | [] => [(name, tb)]
  | (n, old) :: rest =>
      if String.eqb n name then (n, tb) :: rest else (n, old) :: put_table name tb rest
  end.

Definition not_found (name : string) : PyExn :=
  Exn "FileNotFoundError" ("Table " +:+ name +:+ " does not exist").

Definition mem_connect (uri : PyVal) (kwargs : list (string * PyVal)) (st : MemStore)
  : result unit * MemStore := (Ok (), st).

Definition mem_table_names (db : unit) (st : MemStore) : result (list string) * MemStore :=
  (Ok ((tables st).*1), st).

Definition mem_drop_table (db : unit) (name : string) (st : MemStore) : result unit * MemStore :=
  match find_table name (tables st) with
  | None => (Raise (not_found name), st)
  | Some _ => (Ok (), {| tables := remove_table name (tables st); add_error := add_error st |})
  end.

Definition mem_create_table (db : unit) (name : string) (sch : Schema) (st : MemStore)
  : result unit * MemStore :=
  match find_table name (tables st) with
  | Some _ => (Raise (Exn "OSError" ("Table " +:+ name +:+ " already exists")), st)
  | None =>
      (Ok (), {| tables := put_table name {| schema := sch; rows := []; index := None |}
                             (tables st);
                 add_error := add_error st |})
  end.

Definition mem_open_table (db : unit) (name : string) (st : MemStore) : result string * MemStore :=
  match find_table name (tables st) with
  | None => (Raise (not_found name), st)
  | Some _ => (Ok name, st)
  end.

Definition mem_add (t : string) (new_rows : list (gmap string Cell)) (st : MemStore)
  : result unit * MemStore :=
  match add_error st, find_table t (tables st) with
  | Some e, _ => (Raise e, st)
  | None, None => (Raise (not_found t), st)
  | None, Some tb =>
      (Ok (), {| tables := put_table t {| schema := schema tb; rows := rows tb ++ new_rows;
                                          index := index tb |} (tables st);
                 add_error := add_error st |})
  end.

Definition mem_create_index (t : string) (metric num_partitions num_sub_vectors : PyVal)
    (st : MemStore) : result unit * MemStore :=
  match find_table t (tables st) with
  | None => (Raise (not_found t), st)
  | Some tb =>
      (Ok (), {| tables := put_table t
                             {| schema := schema tb; rows := rows tb;
                                index := Some (metric, num_partitions, num_sub_vectors) |}
                             (tables st);
                 add_error := add_error st |})
  end.

(** The [k] of the first [limit] step, if any. *)
Fixpoint limit_of (steps : list QueryStep) : option Z :=
  match steps with
  | [] => None
  | QLimit k :: _ => Some k
  | _ :: rest => limit_of rest
  end.

Definition mem_to_arrow (t : string) (query : list float) (steps : list QueryStep) (st : MemStore)
  : result (list (gmap string Cell)) * MemStore :=
  match find_table t (tables st) with
  | None => (Raise (not_found t), st)
  | Some tb =>
      (Ok (match limit_of steps with
           | Some k => take (Z.to_nat k) (rows tb)
           | None => rows tb
           end), st)
  end.

Fixpoint mem_column_to_pylist (res : list (gmap string Cell)) (name : string)
  : result (list PyVal) :=
  match res with
  | [] => Ok []
  | row :: rest =>
      match row !! name, mem_column_to_pylist rest name with
      | Some (CInt i), Ok ids => Ok (VInt i :: ids)
      | Some (CInt _), Raise e => Raise e
      | _, _ => Raise (Exn "KeyError" name)
      end
  end.

Definition MemDB : Collaborator := {|
  Store := MemStore;
  Conn := unit;
  Table := string;
  Arrow := list (gmap string Cell);
  connect := mem_connect;
  table_names := mem_table_names;
  drop_table := mem_drop_table;
  create_table := mem_create_table;
  open_table := mem_open_table;
  add := mem_add;
  create_index := mem_create_index;
  to_arrow := mem_to_arrow;
  column_to_pylist := mem_column_to_pylist
|}.

(** A world over the stand-in with nothing called or printed yet. *)
Definition world_of (st : MemStore) : World MemDB :=
  Build_World MemDB st [] [] [].

End memdb.

(** ** The benchmark scenario of the spec, on the stand-in store

    Two embeddings of dimension 4 with ids 1 and 2, already loaded into the
    default collection. *)

Module scenario.

#[local] Set Warnings "-inexact-float".

Definition name : string := "VectorDBBenchCollection".

Definition embeddings : list (list float) :=
  [ [0.1%float; 0.2%float; 0.3%float; 0.4%float];
    [0.5%float; 0.6%float; 0.7%float; 0.8%float] ].

Definition metadata : list Z := [1; 2].

(** The query of the scenario: the first embedding. *)
Definition query : list float := [0.1%float; 0.2%float; 0.3%float; 0.4%float].

Definition stored_rows : list (gmap string Cell) :=
  (λ e, <[ "id" := CInt e.2 ]> (<[ "vector" := CVector e.1 ]> ∅)) <$> zip embeddings metadata.

(** A store that already holds the collection and its two rows;
    [add_error], when set, makes every batch insert raise it. *)
Definition loaded (add_error : option PyExn) : memdb.MemStore :=
  {| memdb.tables :=
       [ (name, {| memdb.schema := [("id", int32); ("vector", list_ float32 4)];
                   memdb.rows := stored_rows; memdb.index := None |}) ];
     memdb.add_error := add_error |}.

(** A store without any collection. *)
Definition empty_store : memdb.MemStore :=
  {| memdb.tables := []; memdb.add_error := None |}.

Definition disk_full : PyExn := Exn "OSError" "No space left on device".

Definition local_config : gmap string PyVal := lancedb.to_dict lancedb.LanceDBConfig_default.

Definition cloud_config : gmap string PyVal :=
  lancedb_cloud.to_dict
    {| lancedb_cloud.uri := "db://test"; lancedb_cloud.api_key := "sk-test";
       lancedb_cloud.region := "us-east-1" |}.

(** A [LanceDB] object as [__init__] leaves it, with [tbl] in state [t]. *)
Definition local_adapter (t : Attr (option (Table memdb.MemDB)))
  : lancedb.LanceDB memdb.MemDB :=
  {| lancedb.collection_name := name; lancedb.db_config := local_config;
     lancedb.case_config := Some lancedb.LanceDBIndexConfig_default;
     lancedb._scalar_field := "id"; lancedb._vector_field := "vector"; lancedb.tbl := t |}.

(** A [LanceDBCloud] object as [__init__] leaves it, with [tbl] in state [t]. *)
Definition cloud_adapter (t : Attr (option (Table memdb.MemDB)))
  : lancedb_cloud.LanceDBCloud memdb.MemDB :=
  {| lancedb_cloud.collection_name := name; lancedb_cloud.db_config := cloud_config;
     lancedb_cloud.case_config := Some lancedb_cloud.LanceDBCloudIndexConfig_default;
     lancedb_cloud._scalar_field := "id"; lancedb_cloud._vector_field := "vector";
     lancedb_cloud.tbl := t |}.

(** The world before anything was called. *)
Definition fresh (add_error : option PyExn) : World memdb.MemDB :=
  memdb.world_of (loaded add_error).

End scenario.

(** ** A store that cannot be reached

    Every operation raises; used to run the adapters against a failing
    connection. *)

Module offline.

Definition unreachable : PyExn := Exn "ConnectionError" "store unreachable".

Definition refuse {R : Type} (st : unit) : result R * unit := (Raise unreachable, st).

Definition Offline : Collaborator := {|
  Store := unit;
  Conn := unit;
  Table := unit;
  Arrow := unit;
  connect := λ _ _, refuse;
  table_names := λ _, refuse;
  drop_table := λ _ _, refuse;
  create_table := λ _ _ _, refuse;
  open_table := λ _ _, refuse;
  add := λ _ _, refuse;
  create_index := λ _ _ _ _, refuse;
  to_arrow := λ _ _ _, refuse;
  column_to_pylist := λ _ _, Raise unreachable
|}.

(** The world before anything was called. *)
Definition fresh : World Offline := Build_World Offline () [] [] [].

End offline.

(** ** Adapters constructed without a case configuration *)

Module unconfigured.

(** A [LanceDB] object constructed with [db_case_config=None]. *)
Definition local_adapter (t : Attr (option (Table memdb.MemDB)))
  : lancedb.LanceDB memdb.MemDB :=
  {| lancedb.collection_name := scenario.name; lancedb.db_config := scenario.local_config;
     lancedb.case_config := None;
     lancedb._scalar_field := "id"; lancedb._vector_field := "vector"; lancedb.tbl := t |}.

(** A [LanceDBCloud] object constructed with [db_case_config=None]. *)
Definition cloud_adapter (t : Attr (option (Table memdb.MemDB)))
  : lancedb_cloud.LanceDBCloud memdb.MemDB :=
  {| lancedb_cloud.collection_name := scenario.name;
     lancedb_cloud.db_config := scenario.cloud_config;
     lancedb_cloud.case_config := None;
     lancedb_cloud._scalar_field := "id"; lancedb_cloud._vector_field := "vector";
     lancedb_cloud.tbl := t |}.

End unconfigured.

(** ** The query of a search, whatever its filters *)

(** The builder chain [LanceDB.search_embedding] submits for [filters]. *)
Definition lancedb_search_steps (cfg : lancedb.LanceDBIndexConfig) (k : Z)
    (scalar_field : string) (filters : option (gmap string PyVal)) : list QueryStep :=
  if truthy filters
  then lancedb.filtered_steps cfg k scalar_field (default ∅ filters)
  else lancedb.unfiltered_steps cfg k scalar_field.

(** The builder chain [LanceDBCloud.search_embedding] submits for [filters]. *)
Definition cloud_search_steps (cfg : lancedb_cloud.LanceDBCloudIndexConfig) (k : Z)
    (scalar_field : string) (filters : option (gmap string PyVal)) : list QueryStep :=
  if truthy filters
  then lancedb_cloud.filtered_steps cfg k scalar_field (default ∅ filters)
  else lancedb_cloud.unfiltered_steps cfg k scalar_field.

(** * Properties *)

(** ** Running monadic code *)

Ltac se_unfold :=
  unfold lancedb_connect, db_table_names, db_drop_table, db_create_table, db_open_table,
    tbl_add, tbl_create_index, tbl_search_to_arrow, print, log_info_,
    in_world, invoke, method_of, try_except, assert_, modify, gets, raise_, lift_result,
    mbind, SE_bind, mret, SE_ret in *.

(** Evaluate a method body as far as the known attributes of [self] allow. *)
Ltac se_run :=
  se_unfold;
  repeat (simpl;
          match goal with
          | H : lancedb.tbl _ = _ |- _ => rewrite H
          | H : lancedb.case_config _ = _ |- _ => rewrite H
          | H : lancedb_cloud.tbl _ = _ |- _ => rewrite H
          | H : lancedb_cloud.case_config _ = _ |- _ => rewrite H
          end);
  simpl.

Section MonadFacts.
Context {S A : Type}.

Lemma with_enter_raises (cm : GeneratorContextManager S) (body : SE S A) s e s1 :
  before_yield cm s = (Raise e, s1) → with_ cm body s = (Raise e, s1).
Proof. intros H. unfold with_. now rewrite H. Qed.

(** An exception of the body leaves the state as the body left it: the
    statements after the [yield] do not run. *)
Lemma with_body_raises (cm : GeneratorContextManager S) (body : SE S A) s u s1 e s2 :
  before_yield cm s = (Ok u, s1) → body s1 = (Raise e, s2) →
  with_ cm body s = (Raise e, s2).
Proof. intros H1 H2. unfold with_. now rewrite H1, H2. Qed.

Lemma with_body_returns (cm : GeneratorContextManager S) (body : SE S A) s u s1 a s2 :
  before_yield cm s = (Ok u, s1) → body s1 = (Ok a, s2) →
  with_ cm body s =
    match after_yield cm s2 with
    | (Raise e, s3) => (Raise e, s3)
    | (Ok _, s3) => (Ok a, s3)
    end.
Proof. intros H1 H2. unfold with_. now rewrite H1, H2. Qed.

End MonadFacts.

(** ** Dictionaries built by the configuration classes *)

Lemma py_str_VStr (d : gmap string PyVal) (key cond : string) :
  d !! key = Some (VStr cond) → py_str (dict_get d key) = cond.
Proof. intros H. unfold dict_get. now rewrite H. Qed.

Lemma truthy_empty : truthy (Some ∅) = false.
Proof. reflexivity. Qed.

Lemma truthy_nonempty (d : gmap string PyVal) : d ≠ ∅ → truthy (Some d) = true.
Proof. intros H. unfold truthy. now rewrite bool_decide_false. Qed.

Lemma lancedb_index_param_values (cfg : lancedb.LanceDBIndexConfig) :
  dict_get (lancedb.index_param cfg) "metric" = VStr (lancedb.parse_metric cfg) ∧
  dict_get (lancedb.index_param cfg) "num_partitions" = of_opt_int (lancedb.num_partitions cfg) ∧
  dict_get (lancedb.index_param cfg) "num_sub_vectors" = of_opt_int (lancedb.num_sub_vectors cfg).
Proof. repeat split; reflexivity. Qed.

Lemma lancedb_search_param_values (cfg : lancedb.LanceDBIndexConfig) :
  dict_get (lancedb.search_param cfg) "metric" = VStr (lancedb.parse_metric cfg) ∧
  dict_get (lancedb.search_param cfg) "nprobes" = of_opt_int (lancedb.nprobes cfg) ∧
  dict_get (lancedb.search_param cfg) "refine_factor" = of_opt_int (lancedb.refine_factor cfg).
Proof. repeat split; reflexivity. Qed.

Lemma cloud_index_param_values (cfg : lancedb_cloud.LanceDBCloudIndexConfig) :
  dict_get (lancedb_cloud.index_param cfg) "metric" = VStr (lancedb_cloud.parse_metric cfg) ∧
  dict_get (lancedb_cloud.index_param cfg) "num_partitions"
    = of_opt_int (lancedb_cloud.num_partitions cfg) ∧
  dict_get (lancedb_cloud.index_param cfg) "num_sub_vectors"
    = of_opt_int (lancedb_cloud.num_sub_vectors cfg).
Proof. repeat split; reflexivity. Qed.

Lemma cloud_search_param_values (cfg : lancedb_cloud.LanceDBCloudIndexConfig) :
  dict_get (lancedb_cloud.search_param cfg) "metric" = VStr (lancedb_cloud.parse_metric cfg) ∧
  dict_get (lancedb_cloud.search_param cfg) "nprobes" = of_opt_int (lancedb_cloud.nprobes cfg) ∧
  dict_get (lancedb_cloud.search_param cfg) "refine_factor" = VNone.
Proof. repeat split; reflexivity. Qed.

(** ** The local adapter, method by method *)

Section LanceDBRuns.
Context {C : Collaborator}.
Implicit Types (self : lancedb.LanceDB C) (w : World C) (h : Table C).

Lemma lancedb_optimize_open self w h cfg :
  lancedb.tbl self = Bound (Some h) → lancedb.case_config self = Some cfg →
  lancedb.optimize (self, w) =
    let m := dict_get (lancedb.index_param cfg) "metric" in
    let np := dict_get (lancedb.index_param cfg) "num_partitions" in
    let ns := dict_get (lancedb.index_param cfg) "num_sub_vectors" in
    let '(r, st) := create_index C h m np ns (store w) in
    (r, (self, {| store := st; calls := calls w ++ [CCreateIndex m np ns];
                  stdout := stdout w ++ [py_str m]; log_info := log_info w |})).
Proof.
  intros Ht Hc. unfold lancedb.optimize, lancedb.get_tbl, lancedb.index_param_get,
    lancedb.get_self. se_run.
  now destruct (create_index C h _ _ _ (store w)).
Qed.

Lemma lancedb_optimize_none self w :
  lancedb.tbl self = Bound None →
  lancedb.optimize (self, w) = (Raise AssertionError, (self, w)).
Proof.
  intros Ht. unfold lancedb.optimize, lancedb.get_tbl, lancedb.get_self. now se_run.
Qed.

Lemma lancedb_optimize_unbound self w :
  lancedb.tbl self = Unbound →
  lancedb.optimize (self, w) = (Raise (no_attribute "LanceDB" "tbl"), (self, w)).
Proof.
  intros Ht. unfold lancedb.optimize, lancedb.get_tbl, lancedb.get_self. now se_run.
Qed.

Lemma lancedb_insert_open self w h embeddings metadata :
  lancedb.tbl self = Bound (Some h) → length embeddings = length metadata →
  lancedb.insert_embeddings embeddings metadata (self, w) =
    let batch := lancedb.records self embeddings metadata in
    let '(r, st) := add C h batch (store w) in
    match r with
    | Ok _ =>
        (Ok (Z.of_nat (length embeddings), None),
         (self, {| store := st; calls := calls w ++ [CAdd batch];
                   stdout := stdout w; log_info := log_info w |}))
    | Raise e =>
        (Ok (0, Some e),
         (self, {| store := st; calls := calls w ++ [CAdd batch]; stdout := stdout w;
                   log_info := log_info w ++ ["Failed to insert data: " +:+ exn_msg e] |}))
    end.
Proof.
  intros Ht Hlen. unfold lancedb.insert_embeddings, lancedb.get_tbl, lancedb.get_self.
  se_run. rewrite bool_decide_true by done. se_run.
  now destruct (add C h _ (store w)) as [[[]|e] st].
Qed.

Lemma lancedb_insert_mismatch self w embeddings metadata :
  length embeddings ≠ length metadata →
  ∃ e, lancedb.insert_embeddings embeddings metadata (self, w) = (Raise e, (self, w)) ∧
       (lancedb.tbl self ≠ Unbound → e = AssertionError).
Proof.
  intros Hlen. unfold lancedb.insert_embeddings, lancedb.get_tbl, lancedb.get_self.
  destruct (lancedb.tbl self) as [|[h|]] eqn:Ht; se_run.
  - eexists; split; [reflexivity | congruence].
  - rewrite bool_decide_false by done. simpl. eexists; split; [reflexivity | done].
  - eexists; split; [reflexivity | done].
Qed.

Lemma lancedb_insert_none self w embeddings metadata :
  lancedb.tbl self = Bound None →
  lancedb.insert_embeddings embeddings metadata (self, w) = (Raise AssertionError, (self, w)).
Proof.
  intros Ht. unfold lancedb.insert_embeddings, lancedb.get_tbl, lancedb.get_self. now se_run.
Qed.

Lemma lancedb_insert_unbound self w embeddings metadata :
  lancedb.tbl self = Unbound →
  lancedb.insert_embeddings embeddings metadata (self, w)
    = (Raise (no_attribute "LanceDB" "tbl"), (self, w)).
Proof.
  intros Ht. unfold lancedb.insert_embeddings, lancedb.get_tbl, lancedb.get_self. now se_run.
Qed.

Lemma lancedb_search_unfiltered self w h cfg query k filters :
  lancedb.tbl self = Bound (Some h) → lancedb.case_config self = Some cfg →
  truthy filters = false →
  lancedb.search_embedding query k filters (self, w) =
    run_query self w h query
      (lancedb.unfiltered_steps cfg k (lancedb._scalar_field self))
      (lancedb._scalar_field self).
Proof.
  intros Ht Hc Hf. unfold lancedb.search_embedding, lancedb.get_tbl, lancedb.search_param_get,
    lancedb.get_self, run_query, lancedb.unfiltered_steps.
  rewrite Hf. se_run.
  now destruct (to_arrow C h _ _ (store w)) as [[res|e] st].
Qed.

Lemma lancedb_search_filtered self w h cfg query k d :
  lancedb.tbl self = Bound (Some h) → lancedb.case_config self = Some cfg →
  d ≠ ∅ →
  lancedb.search_embedding query k (Some d) (self, w) =
    run_query self w h query
      (lancedb.filtered_steps cfg k (lancedb._scalar_field self) d)
      (lancedb._scalar_field self).
Proof.
  intros Ht Hc Hd. unfold lancedb.search_embedding, lancedb.get_tbl, lancedb.index_param_get,
    lancedb.get_self, run_query, lancedb.filtered_steps.
  rewrite truthy_nonempty by done. se_run.
  now destruct (to_arrow C h _ _ (store w)) as [[res|e] st].
Qed.

Lemma lancedb_search_none self w query k filters :
  lancedb.tbl self = Bound None →
  lancedb.search_embedding query k filters (self, w)
    = (Raise (no_attribute "NoneType" "search"), (self, w)).
Proof.
  intros Ht. unfold lancedb.search_embedding, lancedb.get_tbl, lancedb.get_self.
  destruct (truthy filters); now se_run.
Qed.

Lemma lancedb_search_unbound self w query k filters :
  lancedb.tbl self = Unbound →
  lancedb.search_embedding query k filters (self, w)
    = (Raise (no_attribute "LanceDB" "tbl"), (self, w)).
Proof.
  intros Ht. unfold lancedb.search_embedding, lancedb.get_tbl, lancedb.get_self.
  destruct (truthy filters); now se_run.
Qed.

End LanceDBRuns.

(** ** The cloud adapter, method by method *)

Section LanceDBCloudRuns.
Context {C : Collaborator}.
Implicit Types (self : lancedb_cloud.LanceDBCloud C) (w : World C) (h : Table C).


Lemma cloud_optimize_open self w h cfg :
  lancedb_cloud.tbl self = Bound (Some h) → lancedb_cloud.case_config self = Some cfg →
  lancedb_cloud.optimize (self, w) =
    (Ok (), (self, {| store := store w; calls := calls w;
                      stdout := stdout w ++ ["here at optimize";
                                             py_str (dict_get (lancedb_cloud.index_param cfg) "metric");
                                             "got here"];
                      log_info := log_info w |})).
Proof.
  intros Ht Hc. unfold lancedb_cloud.optimize, lancedb_cloud.get_tbl,
    lancedb_cloud.index_param_get, lancedb_cloud.get_self. se_run.
  now rewrite <- !app_assoc.
Qed.

Lemma cloud_optimize_none self w :
  lancedb_cloud.tbl self = Bound None →
  lancedb_cloud.optimize (self, w) =
    (Raise AssertionError,
     (self, {| store := store w; calls := calls w;
               stdout := stdout w ++ ["here at optimize"]; log_info := log_info w |})).
Proof.
  intros Ht. unfold lancedb_cloud.optimize, lancedb_cloud.get_tbl, lancedb_cloud.get_self.
  now se_run.
Qed.

Lemma cloud_optimize_unbound self w :
  lancedb_cloud.tbl self = Unbound →
  lancedb_cloud.optimize (self, w) =
    (Raise (no_attribute "LanceDBCloud" "tbl"),
     (self, {| store := store w; calls := calls w;
               stdout := stdout w ++ ["here at optimize"]; log_info := log_info w |})).
Proof.
  intros Ht. unfold lancedb_cloud.optimize, lancedb_cloud.get_tbl, lancedb_cloud.get_self.
  now se_run.
Qed.

Lemma cloud_insert_open self w h embeddings metadata :
  lancedb_cloud.tbl self = Bound (Some h) → length embeddings = length metadata →
  lancedb_cloud.insert_embeddings embeddings metadata (self, w) =
    let batch := lancedb_cloud.records self embeddings metadata in
    let '(r, st) := add C h batch (store w) in
    match r with
    | Ok _ =>
        (Ok (Z.of_nat (length embeddings), None),
         (self, {| store := st; calls := calls w ++ [CAdd batch];
                   stdout := stdout w; log_info := log_info w |}))
    | Raise e =>
        (Ok (0, Some e),
         (self, {| store := st; calls := calls w ++ [CAdd batch]; stdout := stdout w;
                   log_info := log_info w ++ ["Failed to insert data: " +:+ exn_msg e] |}))
    end.
Proof.
  intros Ht Hlen. unfold lancedb_cloud.insert_embeddings, lancedb_cloud.get_tbl,
    lancedb_cloud.get_self.
  se_run. rewrite bool_decide_true by done. se_run.
  now destruct (add C h _ (store w)) as [[[]|e] st].
Qed.

Lemma cloud_insert_mismatch self w embeddings metadata :
  length embeddings ≠ length metadata →
  ∃ e, lancedb_cloud.insert_embeddings embeddings metadata (self, w) = (Raise e, (self, w)) ∧
       (lancedb_cloud.tbl self ≠ Unbound → e = AssertionError).
Proof.
  intros Hlen. unfold lancedb_cloud.insert_embeddings, lancedb_cloud.get_tbl,
    lancedb_cloud.get_self.
  destruct (lancedb_cloud.tbl self) as [|[h|]] eqn:Ht; se_run.
  - eexists; split; [reflexivity | congruence].
  - rewrite bool_decide_false by done. simpl. eexists; split; [reflexivity | done].
  - eexists; split; [reflexivity | done].
Qed.

Lemma cloud_insert_none self w embeddings metadata :
  lancedb_cloud.tbl self = Bound None →
  lancedb_cloud.insert_embeddings embeddings metadata (self, w)
    = (Raise AssertionError, (self, w)).
Proof.
  intros Ht. unfold lancedb_cloud.insert_embeddings, lancedb_cloud.get_tbl,
    lancedb_cloud.get_self. now se_run.
Qed.

Lemma cloud_insert_unbound self w embeddings metadata :
  lancedb_cloud.tbl self = Unbound →
  lancedb_cloud.insert_embeddings embeddings metadata (self, w)
    = (Raise (no_attribute "LanceDBCloud" "tbl"), (self, w)).
Proof.
  intros Ht. unfold lancedb_cloud.insert_embeddings, lancedb_cloud.get_tbl,
    lancedb_cloud.get_self. now se_run.
Qed.

Lemma cloud_search_unfiltered self w h cfg query k filters :
  lancedb_cloud.tbl self = Bound (Some h) → lancedb_cloud.case_config self = Some cfg →
  truthy filters = false →
  lancedb_cloud.search_embedding query k filters (self, w) =
    run_query self w h query
      (lancedb_cloud.unfiltered_steps cfg k (lancedb_cloud._scalar_field self))
      (lancedb_cloud._scalar_field self).
Proof.
  intros Ht Hc Hf. unfold lancedb_cloud.search_embedding, lancedb_cloud.get_tbl,
    lancedb_cloud.search_param_get, lancedb_cloud.get_self, run_query,
    lancedb_cloud.unfiltered_steps.
  rewrite Hf. se_run.
  now destruct (to_arrow C h _ _ (store w)) as [[res|e] st].
Qed.

Lemma cloud_search_filtered self w h cfg query k d :
  lancedb_cloud.tbl self = Bound (Some h) → lancedb_cloud.case_config self = Some cfg →
  d ≠ ∅ →
  lancedb_cloud.search_embedding query k (Some d) (self, w) =
    run_query self w h query
      (lancedb_cloud.filtered_steps cfg k (lancedb_cloud._scalar_field self) d)
      (lancedb_cloud._scalar_field self).
Proof.
  intros Ht Hc Hd. unfold lancedb_cloud.search_embedding, lancedb_cloud.get_tbl,
    lancedb_cloud.index_param_get, lancedb_cloud.get_self, run_query,
    lancedb_cloud.filtered_steps.
  rewrite truthy_nonempty by done. se_run.
  now destruct (to_arrow C h _ _ (store w)) as [[res|e] st].
Qed.

Lemma cloud_search_none self w query k filters :
  lancedb_cloud.tbl self = Bound None →
  lancedb_cloud.search_embedding query k filters (self, w)
    = (Raise (no_attribute "NoneType" "search"), (self, w)).
Proof.
  intros Ht. unfold lancedb_cloud.search_embedding, lancedb_cloud.get_tbl,
    lancedb_cloud.get_self.
  destruct (truthy filters); now se_run.
Qed.

Lemma cloud_search_unbound self w query k filters :
  lancedb_cloud.tbl self = Unbound →
  lancedb_cloud.search_embedding query k filters (self, w)
    = (Raise (no_attribute "LanceDBCloud" "tbl"), (self, w)).
Proof.
  intros Ht. unfold lancedb_cloud.search_embedding, lancedb_cloud.get_tbl,
    lancedb_cloud.get_self.
  destruct (truthy filters); now se_run.
Qed.

End LanceDBCloudRuns.

(** ** Construction *)

Section Construction.
Context {C : Collaborator}.
Implicit Types (w : World C) (db : Conn C).

(** The object a successful construction returns. *)
Lemma lancedb_init_object dim db_config cc name drop_old w self w' :
  lancedb.__init__ dim db_config cc name drop_old w = (Ok self, w') →
  lancedb.collection_name self = name ∧ lancedb._scalar_field self = "id" ∧
  lancedb._vector_field self = "vector" ∧ lancedb.case_config self = cc ∧
  lancedb.tbl self = Unbound.
Proof.
  unfold lancedb.__init__. se_unfold. intros H.
  repeat match type of H with
         | context [let '(_, _) := ?x in _] => destruct x as [[?|?] ?]; simpl in H
         | context [if ?b then _ else _] => destruct b; simpl in H
         end; try discriminate; now inversion H.
Qed.

Lemma cloud_init_object dim db_config cc name drop_old w self w' :
  lancedb_cloud.__init__ dim db_config cc name drop_old w = (Ok self, w') →
  lancedb_cloud.collection_name self = name ∧ lancedb_cloud._scalar_field self = "id" ∧
  lancedb_cloud._vector_field self = "vector" ∧ lancedb_cloud.case_config self = cc ∧
  lancedb_cloud.tbl self = Unbound.
Proof.
  unfold lancedb_cloud.__init__. se_unfold. intros H.
  repeat match type of H with
         | context [let '(_, _) := ?x in _] => destruct x as [[?|?] ?]; simpl in H
         | context [if ?b then _ else _] => destruct b; simpl in H
         end; try discriminate; now inversion H.
Qed.

(** Local adapter, [drop_old] false: nothing is dropped, and the collection
    is created only when its name is not listed. *)
Lemma lancedb_init_keeps dim db_config cc name w db st1 names st2 :
  connect C (dict_get db_config "uri") [] (store w) = (Ok db, st1) →
  table_names C db st1 = (Ok names, st2) →
  ∃ self,
    lancedb.__init__ dim db_config cc name false w =
      if bool_decide (name ∈ names)
      then (Ok self,
            {| store := st2;
               calls := calls w ++ [CConnect (dict_get db_config "uri") []; CTableNames];
               stdout := stdout w; log_info := log_info w |})
      else
        let sch := [("id", int32); ("vector", list_ float32 dim)] in
        let '(r, st3) := create_table C db name sch st2 in
        (match r with Ok _ => Ok self | Raise e => Raise e end,
         {| store := st3;
            calls := calls w ++ [CConnect (dict_get db_config "uri") []; CTableNames;
                                 CCreateTable name sch];
            stdout := stdout w; log_info := log_info w |}).
Proof.
  intros Hc Hn. eexists. unfold lancedb.__init__. se_unfold. simpl.
  rewrite Hc. simpl. rewrite Hn. simpl.
  destruct (bool_decide (name ∈ names)); simpl.
  - now rewrite <- !app_assoc.
  - match goal with
    | |- context [create_table C db name ?sch st2] =>
        destruct (create_table C db name sch st2) as [[[]|e] st3]
    end; now rewrite <- !app_assoc.
Qed.

(** Local adapter, [drop_old] true and the collection listed: it is dropped
    before the second listing. *)
Lemma lancedb_init_drops dim db_config cc name w db st1 names st2 :
  connect C (dict_get db_config "uri") [] (store w) = (Ok db, st1) →
  table_names C db st1 = (Ok names, st2) →
  name ∈ names →
  ∃ r w', lancedb.__init__ dim db_config cc name true w = (r, w') ∧
          ∃ rest, calls w' = (calls w ++ [CConnect (dict_get db_config "uri") []; CTableNames;
                                          CDropTable name] ++ rest)%list.
Proof.
  intros Hc Hn Hin. unfold lancedb.__init__. se_unfold. simpl.
  rewrite Hc. simpl. rewrite Hn. simpl. rewrite bool_decide_true by done. simpl.
  destruct (drop_table C db name st2) as [[[]|e] st3]; simpl.
  2: { do 2 eexists; split; [reflexivity|]. exists []. simpl. now rewrite <- !app_assoc. }
  destruct (table_names C db st3) as [[names'|e] st4]; simpl.
  2: { do 2 eexists; split; [reflexivity|]. exists [CTableNames]. simpl.
       now rewrite <- !app_assoc. }
  destruct (bool_decide (name ∈ names')); simpl.
  - do 2 eexists; split; [reflexivity|]. exists [CTableNames]. now rewrite <- !app_assoc.
  - match goal with
    | |- context [create_table C db name ?sch st4] =>
        destruct (create_table C db name sch st4) as [[[]|e] st5]
    end.
    all: do 2 eexists; (split; [reflexivity|]); eexists [CTableNames; _]; simpl.
    all: now rewrite <- !app_assoc.
Qed.

(** Cloud adapter: [drop_old] is not read. *)
Lemma cloud_init_ignores_drop_old dim db_config cc name w :
  lancedb_cloud.__init__ (C:=C) dim db_config cc name false w
  = lancedb_cloud.__init__ dim db_config cc name true w.
Proof. reflexivity. Qed.

(** Cloud adapter: once connected, the drop call is issued, whatever
    [drop_old] is and whatever the store lists. *)
Lemma cloud_init_always_drops dim db_config cc name drop_old w db st1 :
  connect C (dict_get db_config "uri") (lancedb_cloud.connect_kwargs db_config) (store w)
    = (Ok db, st1) →
  ∃ r w', lancedb_cloud.__init__ dim db_config cc name drop_old w = (r, w') ∧
          CDropTable name ∈ calls w'.
Proof.
  intros Hc. unfold lancedb_cloud.__init__. se_unfold. simpl. rewrite Hc. simpl.
  destruct (drop_table C db name st1) as [[[]|e] st2]; simpl.
  2: { do 2 eexists; split; [reflexivity|]. simpl. set_solver. }
  destruct (table_names C db st2) as [[names|e] st3]; simpl.
  2: { do 2 eexists; split; [reflexivity|]. simpl. set_solver. }
  destruct (bool_decide (name ∈ names)); simpl.
  - do 2 eexists; split; [reflexivity|]. simpl. set_solver.
  - match goal with
    | |- context [create_table C db name ?sch st3] =>
        destruct (create_table C db name sch st3) as [[[]|e] st4]
    end.
    all: do 2 eexists; split; [reflexivity|]; simpl; set_solver.
Qed.

End Construction.

(** ** The scoped connection *)

Section Scope.
Context {C : Collaborator} {A : Type}.

Lemma lancedb_init_enter (self : lancedb.LanceDB C) (w : World C) db st1 t st2 :
  connect C (dict_get (lancedb.db_config self) "uri") [] (store w) = (Ok db, st1) →
  open_table C db (lancedb.collection_name self) st1 = (Ok t, st2) →
  before_yield lancedb.init (self, w) =
    (Ok (), (lancedb.with_tbl self (Bound (Some t)),
             {| store := st2;
                calls := calls w ++ [CConnect (dict_get (lancedb.db_config self) "uri") [];
                                     COpenTable (lancedb.collection_name self)];
                stdout := stdout w; log_info := log_info w |})).
Proof.
  intros Hc Ho. unfold lancedb.init, lancedb.set_tbl, lancedb.get_self. se_unfold. simpl.
  rewrite Hc. simpl. rewrite Ho. simpl. now rewrite <- !app_assoc.
Qed.

Lemma lancedb_init_exit (s : lancedb.LanceDB C * World C) :
  after_yield lancedb.init s = (Ok (), (lancedb.with_tbl s.1 Unbound, s.2)).
Proof. reflexivity. Qed.

(** On a normal end of the block the attribute is gone. *)
Lemma lancedb_with_released_on_return (body : lancedb.M (C:=C) A) s a s' :
  with_ lancedb.init body s = (Ok a, s') → lancedb.tbl s'.1 = Unbound.
Proof.
  unfold with_. destruct (before_yield lancedb.init s) as [[u|e] s1]; [|discriminate].
  destruct (body s1) as [[a'|e] s2]; [|discriminate].
  rewrite lancedb_init_exit. now intros [= _ <-].
Qed.

Lemma cloud_init_enter (self : lancedb_cloud.LanceDBCloud C) (w : World C) db st1 t st2 :
  let uri := dict_get (lancedb_cloud.db_config self) "uri" in
  let kwargs := lancedb_cloud.connect_kwargs (lancedb_cloud.db_config self) in
  connect C uri kwargs (store w) = (Ok db, st1) →
  open_table C db (lancedb_cloud.collection_name self) st1 = (Ok t, st2) →
  before_yield lancedb_cloud.init (self, w) =
    (Ok (), (lancedb_cloud.with_tbl self (Bound (Some t)),
             {| store := st2;
                calls := calls w ++ [CConnect uri kwargs;
                                     COpenTable (lancedb_cloud.collection_name self)];
                stdout := stdout w; log_info := log_info w |})).
Proof.
  intros uri kwargs Hc Ho. unfold lancedb_cloud.init, lancedb_cloud.set_tbl,
    lancedb_cloud.get_self. se_unfold. simpl.
  fold uri kwargs. rewrite Hc. simpl. rewrite Ho. simpl. now rewrite <- !app_assoc.
Qed.

Lemma cloud_init_exit (s : lancedb_cloud.LanceDBCloud C * World C) :
  after_yield lancedb_cloud.init s = (Ok (), (lancedb_cloud.with_tbl s.1 Unbound, s.2)).
Proof. reflexivity. Qed.

Lemma cloud_with_released_on_return (body : lancedb_cloud.M (C:=C) A) s a s' :
  with_ lancedb_cloud.init body s = (Ok a, s') → lancedb_cloud.tbl s'.1 = Unbound.
Proof.
  unfold with_. destruct (before_yield lancedb_cloud.init s) as [[u|e] s1]; [|discriminate].
  destruct (body s1) as [[a'|e] s2]; [|discriminate].
  rewrite cloud_init_exit. now intros [= _ <-].
Qed.

End Scope.

(** ** Claims *)

(** C9. [parse_metric] is total and maps L2 to "L2", inner product to "dot",
    and cosine, the unset value and every other member to "cosine", in both
    configuration classes. *)
Theorem parse_metric_tokens :
  (∀ cfg : lancedb.LanceDBIndexConfig,
     lancedb.parse_metric cfg =
       match lancedb.metric_type cfg with
       | Some L2 => "L2"
       | Some IP => "dot"
       | Some COSINE | Some (OTHER _) | None => "cosine"
       end) ∧
  (∀ cfg : lancedb_cloud.LanceDBCloudIndexConfig,
     lancedb_cloud.parse_metric cfg =
       match lancedb_cloud.metric_type cfg with
       | Some L2 => "L2"
       | Some IP => "dot"
       | Some COSINE | Some (OTHER _) | None => "cosine"
       end).
Proof.
  split; intros cfg.
  - unfold lancedb.parse_metric. now destruct (lancedb.metric_type cfg) as [[]|].
  - unfold lancedb_cloud.parse_metric. now destruct (lancedb_cloud.metric_type cfg) as [[]|].
Qed.

(** C1, the defect.  The cloud constructor is called with [drop_old] false
    on a store that already holds the collection with two rows: it issues
    the drop call and re-creates the collection, empty.  The local
    constructor, on the same input, lists the tables and leaves the
    collection as it is. *)
Theorem cloud_init_drops_existing_collection :
  let sch := [("id", int32); ("vector", list_ float32 4)] in
  let cloud := lancedb_cloud.__init__ 4 scenario.cloud_config
                 (Some lancedb_cloud.LanceDBCloudIndexConfig_default) scenario.name false
                 (scenario.fresh None) in
  let local := lancedb.__init__ 4 scenario.local_config
                 (Some lancedb.LanceDBIndexConfig_default) scenario.name false
                 (scenario.fresh None) in
  memdb.rows <$> memdb.find_table scenario.name (memdb.tables (scenario.loaded None))
    = Some scenario.stored_rows ∧
  calls cloud.2 =
    [ CConnect (VStr "db://test") [("api_key", VStr "sk-test"); ("region", VStr "us-east-1")];
      CDropTable scenario.name; CTableNames; CCreateTable scenario.name sch ] ∧
  memdb.rows <$> memdb.find_table scenario.name (memdb.tables (store cloud.2)) = Some [] ∧
  calls local.2 = [ CConnect (VStr "data/vector-lancedb") []; CTableNames ] ∧
  memdb.rows <$> memdb.find_table scenario.name (memdb.tables (store local.2)) = Some scenario.stored_rows.
Proof. cbv zeta. repeat apply conj; reflexivity. Qed.

(** C2, the defect.  A block entered through [init] whose body raises: the
    exception reaches the caller and [self.tbl] still holds the table
    handle, in both adapters; only a body that ends normally has it
    released. *)
Theorem init_keeps_handle_when_body_raises :
  let stop := Exn "RuntimeError" "stop" in
  let local (body : lancedb.M unit) :=
    with_ lancedb.init body (scenario.local_adapter Unbound, scenario.fresh None) in
  let cloud (body : lancedb_cloud.M unit) :=
    with_ lancedb_cloud.init body (scenario.cloud_adapter Unbound, scenario.fresh None) in
  ((local (raise_ stop)).1 = Raise stop ∧
   lancedb.tbl (local (raise_ stop)).2.1 = Bound (Some scenario.name) ∧
   lancedb.tbl (local (mret ())).2.1 = Unbound) ∧
  ((cloud (raise_ stop)).1 = Raise stop ∧
   lancedb_cloud.tbl (cloud (raise_ stop)).2.1 = Bound (Some scenario.name) ∧
   lancedb_cloud.tbl (cloud (mret ())).2.1 = Unbound).
Proof. cbv zeta. repeat apply conj; reflexivity. Qed.

(** C3, as amended.  Inside an open scope [LanceDB.optimize] prints the
    metric and issues one [create_index] call on the handle, with the
    "metric", "num_partitions" and "num_sub_vectors" values of
    [index_param()]; [LanceDBCloud.optimize] prints three lines and issues
    no call.  With the handle [None], both fail their assertion. *)
Theorem optimize_builds_index (C : Collaborator) (w : World C)
    (self : lancedb.LanceDB C) (h : Table C) (cfg : lancedb.LanceDBIndexConfig)
    (self' : lancedb_cloud.LanceDBCloud C) (h' : Table C)
    (cfg' : lancedb_cloud.LanceDBCloudIndexConfig) :
  lancedb.tbl self = Bound (Some h) → lancedb.case_config self = Some cfg →
  lancedb_cloud.tbl self' = Bound (Some h') → lancedb_cloud.case_config self' = Some cfg' →
  let m := dict_get (lancedb.index_param cfg) "metric" in
  let np := dict_get (lancedb.index_param cfg) "num_partitions" in
  let ns := dict_get (lancedb.index_param cfg) "num_sub_vectors" in
  let m' := dict_get (lancedb_cloud.index_param cfg') "metric" in
  lancedb.optimize (self, w) =
    (let '(r, st) := create_index C h m np ns (store w) in
     (r, (self, {| store := st; calls := calls w ++ [CCreateIndex m np ns];
                   stdout := stdout w ++ [py_str m]; log_info := log_info w |}))) ∧
  lancedb_cloud.optimize (self', w) =
    (Ok (), (self', {| store := store w; calls := calls w;
                       stdout := stdout w ++ ["here at optimize"; py_str m'; "got here"];
                       log_info := log_info w |})) ∧
  (lancedb.optimize (lancedb.with_tbl self (Bound None), w)).1 = Raise AssertionError ∧
  (lancedb_cloud.optimize (lancedb_cloud.with_tbl self' (Bound None), w)).1
    = Raise AssertionError.
Proof.
  intros Ht Hc Ht' Hc'. cbv zeta. split; [|split; [|split]].
  - exact (lancedb_optimize_open self w h cfg Ht Hc).
  - exact (cloud_optimize_open self' w h' cfg' Ht' Hc').
  - now rewrite lancedb_optimize_none.
  - now rewrite cloud_optimize_none.
Qed.

Lemma optimize_builds_index_witness :
  let self := scenario.local_adapter (Bound (Some scenario.name)) in
  let self' := scenario.cloud_adapter (Bound (Some scenario.name)) in
  let w := scenario.fresh None in
  (lancedb.tbl self = Bound (Some scenario.name) ∧
   lancedb.case_config self = Some lancedb.LanceDBIndexConfig_default ∧
   lancedb_cloud.tbl self' = Bound (Some scenario.name) ∧
   lancedb_cloud.case_config self' = Some lancedb_cloud.LanceDBCloudIndexConfig_default) ∧
  calls (lancedb.optimize (self, w)).2.2 = [CCreateIndex (VStr "cosine") (VInt 256) (VInt 96)] ∧
  calls (lancedb_cloud.optimize (self', w)).2.2 = [].
Proof.
  intros self self' w. split; [repeat split; reflexivity|].
  destruct (optimize_builds_index memdb.MemDB w self scenario.name
              lancedb.LanceDBIndexConfig_default self' scenario.name
              lancedb_cloud.LanceDBCloudIndexConfig_default
              eq_refl eq_refl eq_refl eq_refl) as (Hl & Hc & _).
  rewrite Hl, Hc. split; reflexivity.
Defined.

(** C3, as stated, fails for the cloud adapter: in an open scope its
    [optimize] returns without any [create_index] call. *)
Lemma cloud_optimize_issues_no_index_build :
  let out := lancedb_cloud.optimize
               (scenario.cloud_adapter (Bound (Some scenario.name)), scenario.fresh None) in
  out.1 = Ok () ∧ ¬ ∃ m np ns, CCreateIndex m np ns ∈ calls out.2.2.
Proof.
  split; [reflexivity|]. intros (m & np & ns & H). vm_compute in H. inversion H.
Qed.

(** C4, as amended.  Inside an open scope, a search without filters (here
    [None]) runs one query on the handle.  [LanceDB] chains the metric, the
    probe count and the refine factor of [search_param()], then the limit
    [k] and the projection on the scalar field; [LanceDBCloud] chains the
    metric of [search_param()], the limit and the projection, and no probe
    count.  Both return the scalar-field column of the answer as the store
    gave it, and re-raise what the store raises. *)
Theorem search_embedding_unfiltered_query (C : Collaborator) (w : World C)
    (self : lancedb.LanceDB C) (h : Table C) (cfg : lancedb.LanceDBIndexConfig)
    (self' : lancedb_cloud.LanceDBCloud C) (h' : Table C)
    (cfg' : lancedb_cloud.LanceDBCloudIndexConfig) (query : list float) (k : Z) :
  lancedb.tbl self = Bound (Some h) → lancedb.case_config self = Some cfg →
  lancedb_cloud.tbl self' = Bound (Some h') → lancedb_cloud.case_config self' = Some cfg' →
  lancedb.search_embedding query k None (self, w) =
    run_query self w h query
      [ QMetric (dict_get (lancedb.search_param cfg) "metric");
        QNprobes (dict_get (lancedb.search_param cfg) "nprobes");
        QRefineFactor (dict_get (lancedb.search_param cfg) "refine_factor");
        QLimit k; QSelect [lancedb._scalar_field self] ]
      (lancedb._scalar_field self) ∧
  lancedb_cloud.search_embedding query k None (self', w) =
    run_query self' w h' query
      [ QMetric (dict_get (lancedb_cloud.search_param cfg') "metric");
        QLimit k; QSelect [lancedb_cloud._scalar_field self'] ]
      (lancedb_cloud._scalar_field self').
Proof.
  intros Ht Hc Ht' Hc'. split.
  - exact (lancedb_search_unfiltered self w h cfg query k None Ht Hc eq_refl).
  - exact (cloud_search_unfiltered self' w h' cfg' query k None Ht' Hc' eq_refl).
Qed.

Lemma search_embedding_unfiltered_query_witness :
  let self := scenario.local_adapter (Bound (Some scenario.name)) in
  let self' := scenario.cloud_adapter (Bound (Some scenario.name)) in
  let w := scenario.fresh None in
  let query := scenario.query in
  (lancedb.tbl self = Bound (Some scenario.name) ∧
   lancedb.case_config self = Some lancedb.LanceDBIndexConfig_default ∧
   lancedb_cloud.tbl self' = Bound (Some scenario.name) ∧
   lancedb_cloud.case_config self' = Some lancedb_cloud.LanceDBCloudIndexConfig_default) ∧
  calls (lancedb.search_embedding query 1 None (self, w)).2.2 =
    [ CToArrow query [ QMetric (VStr "cosine"); QNprobes (VInt 0); QRefineFactor (VInt 0);
                       QLimit 1; QSelect ["id"] ] ] ∧
  calls (lancedb_cloud.search_embedding query 1 None (self', w)).2.2 =
    [ CToArrow query [ QMetric (VStr "cosine"); QLimit 1; QSelect ["id"] ] ].
Proof.
  intros self self' w query. split; [repeat split; reflexivity|].
  destruct (search_embedding_unfiltered_query memdb.MemDB w self scenario.name
              lancedb.LanceDBIndexConfig_default self' scenario.name
              lancedb_cloud.LanceDBCloudIndexConfig_default query 1
              eq_refl eq_refl eq_refl eq_refl) as (Hl & Hc).
  rewrite Hl, Hc. split; reflexivity.
Defined.

(** C4, as stated, fails for the cloud adapter: the query of an unfiltered
    search carries no probe count. *)
Lemma cloud_search_sets_no_probe_count :
  let query := scenario.query in
  let out := lancedb_cloud.search_embedding query 1 None
               (scenario.cloud_adapter (Bound (Some scenario.name)), scenario.fresh None) in
  out.1 = Ok [VInt 1] ∧
  ¬ ∃ q steps n, CToArrow q steps ∈ calls out.2.2 ∧ QNprobes n ∈ steps.
Proof.
  split; [reflexivity|]. intros (q & steps & n & H & Hn). vm_compute in H.
  apply list_elem_of_singleton in H. injection H as -> ->.
  repeat (apply elem_of_cons in Hn as [Hn|Hn]; [discriminate|]).
  inversion Hn.
Qed.

(** C5, as amended.  Inside an open scope, a search whose [filters] is a
    non-empty dictionary [d] runs one query on the handle, in both adapters
    alike: the metric of [index_param()], the limit [k], the projection on
    the scalar field, and a [where] whose predicate is the scalar field
    name, a space, and [str(d.get("metadata"))], which is the condition
    itself when that entry is a string.  No probe count and no refine
    factor is chained. *)
Theorem search_embedding_filtered_query (C : Collaborator) (w : World C)
    (self : lancedb.LanceDB C) (h : Table C) (cfg : lancedb.LanceDBIndexConfig)
    (self' : lancedb_cloud.LanceDBCloud C) (h' : Table C)
    (cfg' : lancedb_cloud.LanceDBCloudIndexConfig) (query : list float) (k : Z)
    (d : gmap string PyVal) :
  lancedb.tbl self = Bound (Some h) → lancedb.case_config self = Some cfg →
  lancedb_cloud.tbl self' = Bound (Some h') → lancedb_cloud.case_config self' = Some cfg' →
  d ≠ ∅ →
  lancedb.search_embedding query k (Some d) (self, w) =
    run_query self w h query
      [ QMetric (dict_get (lancedb.index_param cfg) "metric");
        QLimit k; QSelect [lancedb._scalar_field self];
        QWhere (lancedb._scalar_field self +:+ " " +:+ py_str (dict_get d "metadata")) ]
      (lancedb._scalar_field self) ∧
  lancedb_cloud.search_embedding query k (Some d) (self', w) =
    run_query self' w h' query
      [ QMetric (dict_get (lancedb_cloud.index_param cfg') "metric");
        QLimit k; QSelect [lancedb_cloud._scalar_field self'];
        QWhere (lancedb_cloud._scalar_field self' +:+ " " +:+ py_str (dict_get d "metadata")) ]
      (lancedb_cloud._scalar_field self') ∧
  ∀ cond : string, d !! "metadata" = Some (VStr cond) → py_str (dict_get d "metadata") = cond.
Proof.
  intros Ht Hc Ht' Hc' Hd. split; [|split].
  - exact (lancedb_search_filtered self w h cfg query k d Ht Hc Hd).
  - exact (cloud_search_filtered self' w h' cfg' query k d Ht' Hc' Hd).
  - intros cond. apply py_str_VStr.
Qed.

Lemma search_embedding_filtered_query_witness :
  let self := scenario.local_adapter (Bound (Some scenario.name)) in
  let self' := scenario.cloud_adapter (Bound (Some scenario.name)) in
  let w := scenario.fresh None in
  let query := scenario.query in
  let d : gmap string PyVal := {[ "metadata" := VStr "> 1" ]} in
  (lancedb.tbl self = Bound (Some scenario.name) ∧
   lancedb.case_config self = Some lancedb.LanceDBIndexConfig_default ∧
   lancedb_cloud.tbl self' = Bound (Some scenario.name) ∧
   lancedb_cloud.case_config self' = Some lancedb_cloud.LanceDBCloudIndexConfig_default ∧
   d ≠ ∅) ∧
  calls (lancedb.search_embedding query 2 (Some d) (self, w)).2.2 =
    [ CToArrow query [ QMetric (VStr "cosine"); QLimit 2; QSelect ["id"]; QWhere "id > 1" ] ] ∧
  calls (lancedb_cloud.search_embedding query 2 (Some d) (self', w)).2.2 =
    [ CToArrow query [ QMetric (VStr "cosine"); QLimit 2; QSelect ["id"]; QWhere "id > 1" ] ].
Proof.
  intros self self' w query d.
  assert (Hd : d ≠ ∅) by (intros H; discriminate H).
  split; [repeat split; try reflexivity; exact Hd|].
  destruct (search_embedding_filtered_query memdb.MemDB w self scenario.name
              lancedb.LanceDBIndexConfig_default self' scenario.name
              lancedb_cloud.LanceDBCloudIndexConfig_default query 2 d
              eq_refl eq_refl eq_refl eq_refl Hd) as (Hl & Hc & _).
  rewrite Hl, Hc. split; reflexivity.
Defined.

(** C5, as stated, fails when [filters] is present but empty: the query
    carries no [where] step. *)
Lemma search_embedding_empty_filters_no_where :
  let query := scenario.query in
  let out := lancedb.search_embedding query 1 (Some ∅)
               (scenario.local_adapter (Bound (Some scenario.name)), scenario.fresh None) in
  out.1 = Ok [VInt 1] ∧
  ¬ ∃ q steps expr, CToArrow q steps ∈ calls out.2.2 ∧ QWhere expr ∈ steps.
Proof.
  split; [reflexivity|]. intros (q & steps & expr & H & Hn). vm_compute in H.
  apply list_elem_of_singleton in H. injection H as -> ->.
  repeat (apply elem_of_cons in Hn as [Hn|Hn]; [discriminate|]).
  inversion Hn.
Qed.

(** C6.  Inside an open scope and with as many ids as embeddings, both
    adapters hand the whole batch to one [add] call.  If the call raises
    [e], [insert_embeddings] logs it and returns [(0, e)], raising nothing;
    otherwise it returns the number of embeddings and [None]. *)
Theorem insert_embeddings_returns (C : Collaborator) (w : World C)
    (self : lancedb.LanceDB C) (h : Table C)
    (self' : lancedb_cloud.LanceDBCloud C) (h' : Table C)
    (embeddings : list (list float)) (metadata : list Z) :
  lancedb.tbl self = Bound (Some h) → lancedb_cloud.tbl self' = Bound (Some h') →
  length embeddings = length metadata →
  let batch := lancedb.records self embeddings metadata in
  let batch' := lancedb_cloud.records self' embeddings metadata in
  match add C h batch (store w) with
  | (Raise e, st) =>
      lancedb.insert_embeddings embeddings metadata (self, w) =
        (Ok (0, Some e),
         (self, {| store := st; calls := calls w ++ [CAdd batch]; stdout := stdout w;
                   log_info := log_info w ++ ["Failed to insert data: " +:+ exn_msg e] |}))
  | (Ok _, st) =>
      lancedb.insert_embeddings embeddings metadata (self, w) =
        (Ok (Z.of_nat (length embeddings), None),
         (self, {| store := st; calls := calls w ++ [CAdd batch]; stdout := stdout w;
                   log_info := log_info w |}))
  end ∧
  match add C h' batch' (store w) with
  | (Raise e, st) =>
      lancedb_cloud.insert_embeddings embeddings metadata (self', w) =
        (Ok (0, Some e),
         (self', {| store := st; calls := calls w ++ [CAdd batch']; stdout := stdout w;
                    log_info := log_info w ++ ["Failed to insert data: " +:+ exn_msg e] |}))
  | (Ok _, st) =>
      lancedb_cloud.insert_embeddings embeddings metadata (self', w) =
        (Ok (Z.of_nat (length embeddings), None),
         (self', {| store := st; calls := calls w ++ [CAdd batch']; stdout := stdout w;
                    log_info := log_info w |}))
  end.
Proof.
  intros Ht Ht' Hlen. cbv zeta. split.
  - rewrite (lancedb_insert_open self w h embeddings metadata Ht Hlen). cbv zeta.
    now destruct (add C h _ (store w)) as [[[]|e] st].
  - rewrite (cloud_insert_open self' w h' embeddings metadata Ht' Hlen). cbv zeta.
    now destruct (add C h' _ (store w)) as [[[]|e] st].
Qed.

Lemma insert_embeddings_returns_witness :
  let self := scenario.local_adapter (Bound (Some scenario.name)) in
  let self' := scenario.cloud_adapter (Bound (Some scenario.name)) in
  (lancedb.tbl self = Bound (Some scenario.name) ∧
   lancedb_cloud.tbl self' = Bound (Some scenario.name) ∧
   length scenario.embeddings = length scenario.metadata) ∧
  ((lancedb.insert_embeddings scenario.embeddings scenario.metadata
      (self, scenario.fresh None)).1 = Ok (2, None) ∧
   (lancedb_cloud.insert_embeddings scenario.embeddings scenario.metadata
      (self', scenario.fresh None)).1 = Ok (2, None)) ∧
  ((lancedb.insert_embeddings scenario.embeddings scenario.metadata
      (self, scenario.fresh (Some scenario.disk_full))).1 = Ok (0, Some scenario.disk_full) ∧
   (lancedb_cloud.insert_embeddings scenario.embeddings scenario.metadata
      (self', scenario.fresh (Some scenario.disk_full))).1 = Ok (0, Some scenario.disk_full)).
Proof.
  intros self self'. split; [repeat split; reflexivity|]. split.
  - destruct (insert_embeddings_returns memdb.MemDB (scenario.fresh None)
                self scenario.name self' scenario.name
                scenario.embeddings scenario.metadata eq_refl eq_refl eq_refl) as (Hl & Hc).
    split; (etransitivity; [apply (f_equal fst); first [exact Hl | exact Hc] | reflexivity]).
  - destruct (insert_embeddings_returns memdb.MemDB (scenario.fresh (Some scenario.disk_full))
                self scenario.name self' scenario.name
                scenario.embeddings scenario.metadata eq_refl eq_refl eq_refl) as (Hl & Hc).
    split; (etransitivity; [apply (f_equal fst); first [exact Hl | exact Hc] | reflexivity]).
Defined.

(** C8, as amended.  With a different number of embeddings and ids,
    [insert_embeddings] raises and leaves the world as it was: no call
    reaches the store and nothing is logged.  The exception is the
    [AssertionError] of one of the two assertions whenever [self.tbl] is
    bound, as it is inside a scope, and the [AttributeError] of reading
    [self.tbl] when it is not. *)
Theorem insert_embeddings_rejects_length_mismatch (C : Collaborator) (w : World C)
    (self : lancedb.LanceDB C) (self' : lancedb_cloud.LanceDBCloud C)
    (embeddings : list (list float)) (metadata : list Z) :
  length embeddings ≠ length metadata →
  lancedb.insert_embeddings embeddings metadata (self, w) =
    (Raise match lancedb.tbl self with
           | Bound _ => AssertionError
           | Unbound => no_attribute "LanceDB" "tbl"
           end, (self, w)) ∧
  lancedb_cloud.insert_embeddings embeddings metadata (self', w) =
    (Raise match lancedb_cloud.tbl self' with
           | Bound _ => AssertionError
           | Unbound => no_attribute "LanceDBCloud" "tbl"
           end, (self', w)).
Proof.
  intros Hlen. split.
  - destruct (lancedb.tbl self) as [|v] eqn:Ht.
    + exact (lancedb_insert_unbound self w embeddings metadata Ht).
    + destruct (lancedb_insert_mismatch self w embeddings metadata Hlen) as (e & H & He).
      rewrite H, He; [reflexivity | congruence].
  - destruct (lancedb_cloud.tbl self') as [|v] eqn:Ht.
    + exact (cloud_insert_unbound self' w embeddings metadata Ht).
    + destruct (cloud_insert_mismatch self' w embeddings metadata Hlen) as (e & H & He).
      rewrite H, He; [reflexivity | congruence].
Qed.

Lemma insert_embeddings_rejects_length_mismatch_witness :
  let self := scenario.local_adapter (Bound (Some scenario.name)) in
  let self' := scenario.cloud_adapter (Bound (Some scenario.name)) in
  let w := scenario.fresh None in
  length scenario.embeddings ≠ length [1] ∧
  lancedb.insert_embeddings scenario.embeddings [1] (self, w) = (Raise AssertionError, (self, w)) ∧
  lancedb_cloud.insert_embeddings scenario.embeddings [1] (self', w)
    = (Raise AssertionError, (self', w)).
Proof.
  intros self self' w.
  assert (Hlen : length scenario.embeddings ≠ length [1]) by (simpl; lia).
  split; [exact Hlen|].
  exact (insert_embeddings_rejects_length_mismatch memdb.MemDB w self self'
           scenario.embeddings [1] Hlen).
Defined.

(** C8, as stated, fails on the object a construction returns, whose
    [tbl] was never bound: the mismatched batch is rejected before any call
    to the store, but by an [AttributeError], not by an assertion failure. *)
Lemma insert_embeddings_mismatch_before_scope :
  let constructed := lancedb.__init__ 4 scenario.local_config
                       (Some lancedb.LanceDBIndexConfig_default) scenario.name false
                       (scenario.fresh None) in
  let self := scenario.local_adapter Unbound in
  let inserted := lancedb.insert_embeddings scenario.embeddings [1] (self, constructed.2) in
  constructed.1 = Ok self ∧
  inserted = (Raise (no_attribute "LanceDB" "tbl"), (self, constructed.2)) ∧
  inserted.1 ≠ Raise AssertionError.
Proof.
  cbv zeta. repeat apply conj; try reflexivity.
  intros H; vm_compute in H; discriminate H.
Qed.

(** C7, as amended.  Without an open scope ([self.tbl] is [None] or
    unbound) every operation that needs one raises, returns no value and
    leaves the store and the call log untouched.  [optimize] and
    [insert_embeddings] fail their assertion when the handle is [None];
    [search_embedding] has no assertion and raises the [AttributeError] of
    [None.search]; when the attribute is unbound, reading it raises
    [AttributeError] in all three. *)
Theorem operations_without_scope_raise (C : Collaborator) (w : World C)
    (self : lancedb.LanceDB C) (self' : lancedb_cloud.LanceDBCloud C) :
  lancedb.scope_open self = false → lancedb_cloud.scope_open self' = false →
  let asserted := match lancedb.tbl self with
                  | Bound _ => AssertionError
                  | Unbound => no_attribute "LanceDB" "tbl"
                  end in
  let asserted' := match lancedb_cloud.tbl self' with
                   | Bound _ => AssertionError
                   | Unbound => no_attribute "LanceDBCloud" "tbl"
                   end in
  (lancedb.optimize (self, w) = (Raise asserted, (self, w)) ∧
   (∀ embeddings metadata,
      lancedb.insert_embeddings embeddings metadata (self, w) = (Raise asserted, (self, w))) ∧
   (∀ query k filters,
      lancedb.search_embedding query k filters (self, w) =
        (Raise match lancedb.tbl self with
               | Bound _ => no_attribute "NoneType" "search"
               | Unbound => no_attribute "LanceDB" "tbl"
               end, (self, w)))) ∧
  (lancedb_cloud.optimize (self', w) =
     (Raise asserted',
      (self', {| store := store w; calls := calls w;
                 stdout := stdout w ++ ["here at optimize"]; log_info := log_info w |})) ∧
   (∀ embeddings metadata,
      lancedb_cloud.insert_embeddings embeddings metadata (self', w)
        = (Raise asserted', (self', w))) ∧
   (∀ query k filters,
      lancedb_cloud.search_embedding query k filters (self', w) =
        (Raise match lancedb_cloud.tbl self' with
               | Bound _ => no_attribute "NoneType" "search"
               | Unbound => no_attribute "LanceDBCloud" "tbl"
               end, (self', w)))).
Proof.
  unfold lancedb.scope_open, lancedb_cloud.scope_open. intros Hs Hs'. cbv zeta. split.
  - destruct (lancedb.tbl self) as [|[h|]] eqn:Ht; [|discriminate|].
    + split; [|split]; intros.
      * now apply lancedb_optimize_unbound.
      * now apply lancedb_insert_unbound.
      * now apply lancedb_search_unbound.
    + split; [|split]; intros.
      * now apply lancedb_optimize_none.
      * now apply lancedb_insert_none.
      * now apply lancedb_search_none.
  - destruct (lancedb_cloud.tbl self') as [|[h|]] eqn:Ht; [|discriminate|].
    + split; [|split]; intros.
      * now apply cloud_optimize_unbound.
      * now apply cloud_insert_unbound.
      * now apply cloud_search_unbound.
    + split; [|split]; intros.
      * now apply cloud_optimize_none.
      * now apply cloud_insert_none.
      * now apply cloud_search_none.
Qed.

Lemma operations_without_scope_raise_witness :
  let self := scenario.local_adapter (Bound None) in
  let self' := scenario.cloud_adapter Unbound in
  let w := scenario.fresh None in
  (lancedb.scope_open self = false ∧ lancedb_cloud.scope_open self' = false) ∧
  lancedb.optimize (self, w) = (Raise AssertionError, (self, w)) ∧
  lancedb_cloud.insert_embeddings scenario.embeddings scenario.metadata (self', w)
    = (Raise (no_attribute "LanceDBCloud" "tbl"), (self', w)).
Proof.
  intros self self' w. split; [split; reflexivity|].
  destruct (operations_without_scope_raise memdb.MemDB w self self' eq_refl eq_refl)
    as ((Ho & _ & _) & (_ & Hi & _)).
  split; [exact Ho | exact (Hi scenario.embeddings scenario.metadata)].
Defined.

(** C7, as stated, fails.  When [init] cannot open the collection, the
    handle stays [None]; [search_embedding] then raises an [AttributeError],
    not an assertion failure.  And on the object a construction returns,
    whose [tbl] was never bound, so does [optimize]. *)
Lemma search_embedding_without_scope_no_assertion :
  let entered := before_yield lancedb.init
                   (scenario.local_adapter Unbound, memdb.world_of scenario.empty_store) in
  let searched := lancedb.search_embedding scenario.query 1 None entered.2 in
  let constructed := lancedb.__init__ 4 scenario.local_config
                       (Some lancedb.LanceDBIndexConfig_default) scenario.name false
                       (scenario.fresh None) in
  let optimized := lancedb.optimize (scenario.local_adapter Unbound, constructed.2) in
  (lancedb.tbl entered.2.1 = Bound None ∧
   searched.1 = Raise (no_attribute "NoneType" "search") ∧
   searched.1 ≠ Raise AssertionError) ∧
  (constructed.1 = Ok (scenario.local_adapter Unbound) ∧
   optimized.1 = Raise (no_attribute "LanceDB" "tbl") ∧
   optimized.1 ≠ Raise AssertionError).
Proof.
  cbv zeta. repeat apply conj; try reflexivity.
  all: intros H; vm_compute in H; discriminate H.
Qed.

(** C10.  A search whose [filters] is the empty dictionary behaves, in
    every state, as the search without filters; inside an open scope its
    query is the unfiltered chain built from [search_param()], with no
    [where] step. *)
Theorem search_embedding_empty_filters_unfiltered (C : Collaborator) (w : World C)
    (self : lancedb.LanceDB C) (h : Table C) (cfg : lancedb.LanceDBIndexConfig)
    (self' : lancedb_cloud.LanceDBCloud C) (h' : Table C)
    (cfg' : lancedb_cloud.LanceDBCloudIndexConfig) (query : list float) (k : Z) :
  lancedb.tbl self = Bound (Some h) → lancedb.case_config self = Some cfg →
  lancedb_cloud.tbl self' = Bound (Some h') → lancedb_cloud.case_config self' = Some cfg' →
  (lancedb.search_embedding query k (Some ∅) (self, w) =
     run_query self w h query
       [ QMetric (dict_get (lancedb.search_param cfg) "metric");
         QNprobes (dict_get (lancedb.search_param cfg) "nprobes");
         QRefineFactor (dict_get (lancedb.search_param cfg) "refine_factor");
         QLimit k; QSelect [lancedb._scalar_field self] ]
       (lancedb._scalar_field self) ∧
   lancedb_cloud.search_embedding query k (Some ∅) (self', w) =
     run_query self' w h' query
       [ QMetric (dict_get (lancedb_cloud.search_param cfg') "metric");
         QLimit k; QSelect [lancedb_cloud._scalar_field self'] ]
       (lancedb_cloud._scalar_field self')) ∧
  (∀ s, lancedb.search_embedding (C:=C) query k (Some ∅) s
        = lancedb.search_embedding query k None s) ∧
  (∀ s, lancedb_cloud.search_embedding (C:=C) query k (Some ∅) s
        = lancedb_cloud.search_embedding query k None s).
Proof.
  intros Ht Hc Ht' Hc'. split; [split|split].
  - exact (lancedb_search_unfiltered self w h cfg query k (Some ∅) Ht Hc truthy_empty).
  - exact (cloud_search_unfiltered self' w h' cfg' query k (Some ∅) Ht' Hc' truthy_empty).
  - reflexivity.
  - reflexivity.
Qed.

Lemma search_embedding_empty_filters_unfiltered_witness :
  let self := scenario.local_adapter (Bound (Some scenario.name)) in
  let self' := scenario.cloud_adapter (Bound (Some scenario.name)) in
  let w := scenario.fresh None in
  (lancedb.tbl self = Bound (Some scenario.name) ∧
   lancedb.case_config self = Some lancedb.LanceDBIndexConfig_default ∧
   lancedb_cloud.tbl self' = Bound (Some scenario.name) ∧
   lancedb_cloud.case_config self' = Some lancedb_cloud.LanceDBCloudIndexConfig_default) ∧
  calls (lancedb.search_embedding scenario.query 2 (Some ∅) (self, w)).2.2 =
    [ CToArrow scenario.query
        [ QMetric (VStr "cosine"); QNprobes (VInt 0); QRefineFactor (VInt 0);
          QLimit 2; QSelect ["id"] ] ] ∧
  calls (lancedb_cloud.search_embedding scenario.query 2 (Some ∅) (self', w)).2.2 =
    [ CToArrow scenario.query [ QMetric (VStr "cosine"); QLimit 2; QSelect ["id"] ] ].
Proof.
  intros self self' w. split; [repeat split; reflexivity|].
  destruct (search_embedding_empty_filters_unfiltered memdb.MemDB w self scenario.name
              lancedb.LanceDBIndexConfig_default self' scenario.name
              lancedb_cloud.LanceDBCloudIndexConfig_default scenario.query 2
              eq_refl eq_refl eq_refl eq_refl) as ((Hl & Hc) & _).
  rewrite Hl, Hc. split; reflexivity.
Defined.

(** * Further properties *)

(** ** Construction *)

(** Split on every answer of the store that the goal depends on. *)
Ltac split_answers C :=
  repeat (simpl;
          match goal with
          | |- context [connect C ?u ?kw ?s] => destruct (connect C u kw s) as [[?|?] ?]
          | |- context [table_names C ?db ?s] => destruct (table_names C db s) as [[?|?] ?]
          | |- context [drop_table C ?db ?n ?s] => destruct (drop_table C db n s) as [[[]|?] ?]
          | |- context [create_table C ?db ?n ?sch ?s] =>
              destruct (create_table C db n sch s) as [[[]|?] ?]
          | |- context [bool_decide ?P] => destruct (bool_decide P)
          end);
  simpl.

(** X1.  [LanceDB.__init__] called with [drop_old] false never issues a
    [drop_table] call, whatever the store answers and whether or not the
    construction succeeds. *)
Theorem lancedb_init_without_drop_old_never_drops (C : Collaborator) (dim : Z)
    (db_config : gmap string PyVal) (cc : option lancedb.LanceDBIndexConfig)
    (name : string) (w : World C) :
  ∃ added : list Call,
    calls (lancedb.__init__ dim db_config cc name false w).2 = (calls w ++ added)%list ∧
    ∀ n, CDropTable n ∉ added.
Proof.
  unfold lancedb.__init__. se_unfold. split_answers C.
  all: eexists; (split; [rewrite <- ?app_assoc; reflexivity|]).
  all: intros n Hn; simpl in Hn.
  all: repeat (apply elem_of_cons in Hn as [Hn|Hn]; [discriminate|]).
  all: inversion Hn.
Qed.

(** X2.  Whatever either constructor is given and whatever the store
    answers, every [create_table] call it issues is for the collection name
    it was given, with the schema of an [int32] field "id" and a fixed-size
    [float32] list field "vector" of size [dim]; [dim] is passed on as it
    is. *)
Theorem init_creates_only_the_fixed_schema (C : Collaborator) (dim : Z)
    (db_config : gmap string PyVal) (name : string) (drop_old : bool) (w : World C)
    (cc : option lancedb.LanceDBIndexConfig)
    (cc' : option lancedb_cloud.LanceDBCloudIndexConfig) :
  let sch := [("id", int32); ("vector", list_ float32 dim)] in
  (∃ added : list Call,
     calls (lancedb.__init__ dim db_config cc name drop_old w).2 = (calls w ++ added)%list ∧
     ∀ n s, CCreateTable n s ∈ added → n = name ∧ s = sch) ∧
  (∃ added : list Call,
     calls (lancedb_cloud.__init__ dim db_config cc' name drop_old w).2
       = (calls w ++ added)%list ∧
     ∀ n s, CCreateTable n s ∈ added → n = name ∧ s = sch).
Proof.
  intros sch. split.
  - unfold lancedb.__init__. se_unfold. destruct drop_old; split_answers C.
    all: eexists; (split; [rewrite <- ?app_assoc; reflexivity|]).
    all: intros ? ? Hn; simpl in Hn.
    all: repeat (apply elem_of_cons in Hn as [Hn|Hn];
                 [first [discriminate | now injection Hn as -> ->]|]).
    all: inversion Hn.
  - unfold lancedb_cloud.__init__. se_unfold. split_answers C.
    all: eexists; (split; [rewrite <- ?app_assoc; reflexivity|]).
    all: intros ? ? Hn; simpl in Hn.
    all: repeat (apply elem_of_cons in Hn as [Hn|Hn];
                 [first [discriminate | now injection Hn as -> ->]|]).
    all: inversion Hn.
Qed.

(** X3.  When [connect] raises, either constructor raises the same
    exception after that single call: nothing is listed, dropped or
    created. *)
Theorem init_connect_failure_propagates (C : Collaborator) (dim : Z)
    (db_config : gmap string PyVal) (name : string) (drop_old : bool) (w : World C)
    (cc : option lancedb.LanceDBIndexConfig)
    (cc' : option lancedb_cloud.LanceDBCloudIndexConfig) (e e' : PyExn) (st st' : Store C) :
  let uri := dict_get db_config "uri" in
  let kwargs := lancedb_cloud.connect_kwargs db_config in
  connect C uri [] (store w) = (Raise e, st) →
  connect C uri kwargs (store w) = (Raise e', st') →
  lancedb.__init__ dim db_config cc name drop_old w =
    (Raise e, {| store := st; calls := calls w ++ [CConnect uri []];
                 stdout := stdout w; log_info := log_info w |}) ∧
  lancedb_cloud.__init__ dim db_config cc' name drop_old w =
    (Raise e', {| store := st'; calls := calls w ++ [CConnect uri kwargs];
                  stdout := stdout w; log_info := log_info w |}).
Proof.
  intros uri kwargs H H'. split.
  - unfold lancedb.__init__. se_unfold. simpl. fold uri. now rewrite H.
  - unfold lancedb_cloud.__init__. se_unfold. simpl. fold uri kwargs. now rewrite H'.
Qed.

Lemma init_connect_failure_propagates_witness :
  let uri := dict_get scenario.cloud_config "uri" in
  let kwargs := lancedb_cloud.connect_kwargs scenario.cloud_config in
  (connect offline.Offline uri [] (store offline.fresh) = (Raise offline.unreachable, ()) ∧
   connect offline.Offline uri kwargs (store offline.fresh) = (Raise offline.unreachable, ())) ∧
  (lancedb.__init__ 4 scenario.cloud_config None scenario.name true offline.fresh).1
    = Raise offline.unreachable ∧
  (lancedb_cloud.__init__ 4 scenario.cloud_config None scenario.name true offline.fresh).1
    = Raise offline.unreachable.
Proof.
  intros uri kwargs. split; [split; reflexivity|].
  destruct (init_connect_failure_propagates offline.Offline 4 scenario.cloud_config
              scenario.name true offline.fresh None None
              offline.unreachable offline.unreachable () () eq_refl eq_refl) as (Hl & Hc).
  rewrite Hl, Hc. split; reflexivity.
Defined.

(** X4.  [LanceDBCloud.__init__] drops the collection before it lists the
    tables: when that [drop_table] call raises, as it does on a store that
    has no such collection, the construction fails with the exception and
    neither lists nor creates anything. *)
Theorem cloud_init_fails_when_drop_raises (C : Collaborator) (dim : Z)
    (db_config : gmap string PyVal) (name : string) (drop_old : bool) (w : World C)
    (cc : option lancedb_cloud.LanceDBCloudIndexConfig)
    (db : Conn C) (st1 st2 : Store C) (e : PyExn) :
  let uri := dict_get db_config "uri" in
  let kwargs := lancedb_cloud.connect_kwargs db_config in
  connect C uri kwargs (store w) = (Ok db, st1) →
  drop_table C db name st1 = (Raise e, st2) →
  lancedb_cloud.__init__ dim db_config cc name drop_old w =
    (Raise e, {| store := st2; calls := calls w ++ [CConnect uri kwargs; CDropTable name];
                 stdout := stdout w; log_info := log_info w |}).
Proof.
  intros uri kwargs Hc Hd. unfold lancedb_cloud.__init__. se_unfold. simpl.
  fold uri kwargs. rewrite Hc. simpl. rewrite Hd. simpl. now rewrite <- app_assoc.
Qed.

Lemma cloud_init_fails_when_drop_raises_witness :
  let w := memdb.world_of scenario.empty_store in
  let uri := dict_get scenario.cloud_config "uri" in
  let kwargs := lancedb_cloud.connect_kwargs scenario.cloud_config in
  (connect memdb.MemDB uri kwargs (store w) = (Ok (), scenario.empty_store) ∧
   drop_table memdb.MemDB () scenario.name scenario.empty_store
     = (Raise (memdb.not_found scenario.name), scenario.empty_store)) ∧
  lancedb_cloud.__init__ 4 scenario.cloud_config
    (Some lancedb_cloud.LanceDBCloudIndexConfig_default) scenario.name true w =
    (Raise (memdb.not_found scenario.name),
     Build_World memdb.MemDB scenario.empty_store
       [CConnect uri kwargs; CDropTable scenario.name] [] []).
Proof.
  intros w uri kwargs. split; [split; reflexivity|].
  exact (cloud_init_fails_when_drop_raises memdb.MemDB 4 scenario.cloud_config scenario.name
           true w (Some lancedb_cloud.LanceDBCloudIndexConfig_default)
           () scenario.empty_store scenario.empty_store (memdb.not_found scenario.name)
           eq_refl eq_refl).
Defined.

(** X5.  [LanceDB.__init__] with [drop_old] true on a store that lists the
    collection drops it, lists the tables again, and creates the collection
    anew when the second listing no longer has it: five calls in that
    order. *)
Theorem lancedb_init_drop_old_recreates (C : Collaborator) (dim : Z)
    (db_config : gmap string PyVal) (cc : option lancedb.LanceDBIndexConfig)
    (name : string) (w : World C) (db : Conn C) (st1 st2 st3 st4 : Store C)
    (names names' : list string) :
  let uri := dict_get db_config "uri" in
  let sch := [("id", int32); ("vector", list_ float32 dim)] in
  connect C uri [] (store w) = (Ok db, st1) →
  table_names C db st1 = (Ok names, st2) →
  name ∈ names →
  drop_table C db name st2 = (Ok (), st3) →
  table_names C db st3 = (Ok names', st4) →
  name ∉ names' →
  let self := {| lancedb.collection_name := name; lancedb.db_config := db_config;
                 lancedb.case_config := cc; lancedb._scalar_field := "id";
                 lancedb._vector_field := "vector"; lancedb.tbl := Unbound |} in
  lancedb.__init__ dim db_config cc name true w =
    (let '(r, st5) := create_table C db name sch st4 in
     (match r with Ok _ => Ok self | Raise e => Raise e end,
      {| store := st5;
         calls := calls w ++ [CConnect uri []; CTableNames; CDropTable name; CTableNames;
                              CCreateTable name sch];
         stdout := stdout w; log_info := log_info w |})).
Proof.
  intros uri sch Hc Hn Hin Hd Hn' Hout self.
  unfold lancedb.__init__. se_unfold. simpl. fold uri.
  rewrite Hc. simpl. rewrite Hn. simpl. rewrite bool_decide_true by done. simpl.
  rewrite Hd. simpl. rewrite Hn'. simpl. rewrite bool_decide_false by done. simpl.
  fold sch. destruct (create_table C db name sch st4) as [[[]|e] st5];
    now rewrite <- !app_assoc.
Qed.

Lemma lancedb_init_drop_old_recreates_witness :
  let w := scenario.fresh None in
  let sch := [("id", int32); ("vector", list_ float32 8)] in
  let out := lancedb.__init__ 8 scenario.local_config None scenario.name true w in
  (scenario.name ∈ [scenario.name] ∧ scenario.name ∉ ([] : list string)) ∧
  out.1 = Ok (unconfigured.local_adapter Unbound) ∧
  calls out.2 = [CConnect (VStr "data/vector-lancedb") []; CTableNames;
                 CDropTable scenario.name; CTableNames; CCreateTable scenario.name sch] ∧
  memdb.tables (store out.2)
    = [(scenario.name, {| memdb.schema := sch; memdb.rows := []; memdb.index := None |})].
Proof.
  intros w sch out.
  assert (Hin : scenario.name ∈ [scenario.name]) by apply list_elem_of_here.
  assert (Hout : scenario.name ∉ ([] : list string)) by apply not_elem_of_nil.
  split; [split; assumption|].
  pose proof (lancedb_init_drop_old_recreates memdb.MemDB 8 scenario.local_config None
              scenario.name w () (scenario.loaded None) (scenario.loaded None)
              scenario.empty_store scenario.empty_store [scenario.name] []
              eq_refl eq_refl Hin eq_refl eq_refl Hout) as H.
  unfold out. rewrite H. repeat apply conj; reflexivity.
Defined.

(** X21.  [LanceDB.__init__] with [drop_old] false lists the tables once
    and then either returns, when the collection is listed, or creates it
    with the fixed schema, when it is not: an existing collection is
    neither dropped nor created over. *)
Theorem lancedb_init_creates_only_when_absent (C : Collaborator) (dim : Z)
    (db_config : gmap string PyVal) (cc : option lancedb.LanceDBIndexConfig)
    (name : string) (w : World C) (db : Conn C) (st1 st2 : Store C) (names : list string) :
  let uri := dict_get db_config "uri" in
  let sch := [("id", int32); ("vector", list_ float32 dim)] in
  let self := {| lancedb.collection_name := name; lancedb.db_config := db_config;
                 lancedb.case_config := cc; lancedb._scalar_field := "id";
                 lancedb._vector_field := "vector"; lancedb.tbl := Unbound |} in
  connect C uri [] (store w) = (Ok db, st1) →
  table_names C db st1 = (Ok names, st2) →
  (name ∈ names →
   lancedb.__init__ dim db_config cc name false w =
     (Ok self, {| store := st2; calls := calls w ++ [CConnect uri []; CTableNames];
                  stdout := stdout w; log_info := log_info w |})) ∧
  (name ∉ names →
   lancedb.__init__ dim db_config cc name false w =
     (let '(r, st3) := create_table C db name sch st2 in
      (match r with Ok _ => Ok self | Raise e => Raise e end,
       {| store := st3;
          calls := calls w ++ [CConnect uri []; CTableNames; CCreateTable name sch];
          stdout := stdout w; log_info := log_info w |}))).
Proof.
  intros uri sch self Hc Hn. split; intros Hin.
  - unfold lancedb.__init__. se_unfold. simpl. fold uri.
    rewrite Hc. simpl. rewrite Hn. simpl. rewrite bool_decide_true by done. simpl.
    now rewrite <- !app_assoc.
  - unfold lancedb.__init__. se_unfold. simpl. fold uri.
    rewrite Hc. simpl. rewrite Hn. simpl. rewrite bool_decide_false by done. simpl.
    fold sch. destruct (create_table C db name sch st2) as [[[]|e] st3];
      now rewrite <- !app_assoc.
Qed.

Lemma lancedb_init_creates_only_when_absent_witness :
  let kept := lancedb.__init__ 4 scenario.local_config None scenario.name false
                (scenario.fresh None) in
  let made := lancedb.__init__ 4 scenario.local_config None scenario.name false
                (memdb.world_of scenario.empty_store) in
  (scenario.name ∈ [scenario.name] ∧ scenario.name ∉ ([] : list string)) ∧
  calls kept.2 = [CConnect (VStr "data/vector-lancedb") []; CTableNames] ∧
  store kept.2 = scenario.loaded None ∧
  calls made.2 = [CConnect (VStr "data/vector-lancedb") []; CTableNames;
                  CCreateTable scenario.name [("id", int32); ("vector", list_ float32 4)]].
Proof.
  intros kept made.
  assert (Hin : scenario.name ∈ [scenario.name]) by apply list_elem_of_here.
  assert (Hout : scenario.name ∉ ([] : list string)) by apply not_elem_of_nil.
  split; [split; assumption|].
  destruct (lancedb_init_creates_only_when_absent memdb.MemDB 4 scenario.local_config None
              scenario.name (scenario.fresh None) () (scenario.loaded None)
              (scenario.loaded None) [scenario.name] eq_refl eq_refl) as (Hk & _).
  destruct (lancedb_init_creates_only_when_absent memdb.MemDB 4 scenario.local_config None
              scenario.name (memdb.world_of scenario.empty_store) () scenario.empty_store
              scenario.empty_store [] eq_refl eq_refl) as (_ & Hm).
  unfold kept, made. rewrite (Hk Hin), (Hm Hout). repeat apply conj; reflexivity.
Defined.

(** ** The scoped connection *)

(** X6.  Entering the scope of either adapter connects with the settings
    given at construction, opens the collection named at construction, and
    binds [self.tbl] to the handle the store returns: two calls, nothing
    else changed. *)
Theorem scope_enter_binds_handle (C : Collaborator) (w : World C)
    (self : lancedb.LanceDB C) (self' : lancedb_cloud.LanceDBCloud C)
    (db db' : Conn C) (t t' : Table C) (st1 st2 st1' st2' : Store C) :
  let uri := dict_get (lancedb.db_config self) "uri" in
  let uri' := dict_get (lancedb_cloud.db_config self') "uri" in
  let kwargs := lancedb_cloud.connect_kwargs (lancedb_cloud.db_config self') in
  connect C uri [] (store w) = (Ok db, st1) →
  open_table C db (lancedb.collection_name self) st1 = (Ok t, st2) →
  connect C uri' kwargs (store w) = (Ok db', st1') →
  open_table C db' (lancedb_cloud.collection_name self') st1' = (Ok t', st2') →
  before_yield lancedb.init (self, w) =
    (Ok (), (lancedb.with_tbl self (Bound (Some t)),
             {| store := st2;
                calls := calls w ++ [CConnect uri []; COpenTable (lancedb.collection_name self)];
                stdout := stdout w; log_info := log_info w |})) ∧
  before_yield lancedb_cloud.init (self', w) =
    (Ok (), (lancedb_cloud.with_tbl self' (Bound (Some t')),
             {| store := st2';
                calls := calls w ++ [CConnect uri' kwargs;
                                     COpenTable (lancedb_cloud.collection_name self')];
                stdout := stdout w; log_info := log_info w |})).
Proof.
  intros uri uri' kwargs Hc Ho Hc' Ho'. split.
  - exact (lancedb_init_enter self w db st1 t st2 Hc Ho).
  - exact (cloud_init_enter self' w db' st1' t' st2' Hc' Ho').
Qed.

Lemma scope_enter_binds_handle_witness :
  let w := scenario.fresh None in
  let self := scenario.local_adapter Unbound in
  let self' := scenario.cloud_adapter Unbound in
  (connect memdb.MemDB (VStr "data/vector-lancedb") [] (store w) = (Ok (), store w) ∧
   open_table memdb.MemDB () scenario.name (store w) = (Ok scenario.name, store w)) ∧
  lancedb.tbl (before_yield lancedb.init (self, w)).2.1 = Bound (Some scenario.name) ∧
  lancedb_cloud.tbl (before_yield lancedb_cloud.init (self', w)).2.1
    = Bound (Some scenario.name).
Proof.
  intros w self self'. split; [split; reflexivity|].
  destruct (scope_enter_binds_handle memdb.MemDB w self self' () () scenario.name scenario.name
              (store w) (store w) (store w) (store w) eq_refl eq_refl eq_refl eq_refl)
    as (Hl & Hc).
  rewrite Hl, Hc. split; reflexivity.
Defined.

(** X7.  When the collection cannot be opened, the block is not run: the
    exception of [open_table] reaches the caller of [with self.init():],
    [self.tbl] is left bound to [None], and the only calls made are the
    connection and the failed opening. *)
Theorem scope_open_failure_skips_body (C : Collaborator) (A : Type) (w : World C)
    (self : lancedb.LanceDB C) (self' : lancedb_cloud.LanceDBCloud C)
    (body : lancedb.M (C:=C) A) (body' : lancedb_cloud.M (C:=C) A)
    (db db' : Conn C) (e e' : PyExn) (st1 st2 st1' st2' : Store C) :
  let uri := dict_get (lancedb.db_config self) "uri" in
  let uri' := dict_get (lancedb_cloud.db_config self') "uri" in
  let kwargs := lancedb_cloud.connect_kwargs (lancedb_cloud.db_config self') in
  connect C uri [] (store w) = (Ok db, st1) →
  open_table C db (lancedb.collection_name self) st1 = (Raise e, st2) →
  connect C uri' kwargs (store w) = (Ok db', st1') →
  open_table C db' (lancedb_cloud.collection_name self') st1' = (Raise e', st2') →
  with_ lancedb.init body (self, w) =
    (Raise e, (lancedb.with_tbl self (Bound None),
               {| store := st2;
                  calls := calls w ++ [CConnect uri []; COpenTable (lancedb.collection_name self)];
                  stdout := stdout w; log_info := log_info w |})) ∧
  with_ lancedb_cloud.init body' (self', w) =
    (Raise e', (lancedb_cloud.with_tbl self' (Bound None),
                {| store := st2';
                   calls := calls w ++ [CConnect uri' kwargs;
                                        COpenTable (lancedb_cloud.collection_name self')];
                   stdout := stdout w; log_info := log_info w |})).
Proof.
  intros uri uri' kwargs Hc Ho Hc' Ho'. split.
  - apply with_enter_raises.
    unfold lancedb.init, lancedb.set_tbl, lancedb.get_self. se_unfold. simpl.
    fold uri. rewrite Hc. simpl. rewrite Ho. simpl. now rewrite <- app_assoc.
  - apply with_enter_raises.
    unfold lancedb_cloud.init, lancedb_cloud.set_tbl, lancedb_cloud.get_self. se_unfold. simpl.
    fold uri' kwargs. rewrite Hc'. simpl. rewrite Ho'. simpl. now rewrite <- app_assoc.
Qed.

Lemma scope_open_failure_skips_body_witness :
  let w := memdb.world_of scenario.empty_store in
  let self := scenario.local_adapter Unbound in
  let self' := scenario.cloud_adapter Unbound in
  let missing := memdb.not_found scenario.name in
  open_table memdb.MemDB () scenario.name (store w) = (Raise missing, store w) ∧
  (with_ lancedb.init (lancedb.insert_embeddings scenario.embeddings scenario.metadata)
     (self, w)).1 = Raise missing ∧
  (with_ lancedb_cloud.init
     (lancedb_cloud.insert_embeddings scenario.embeddings scenario.metadata)
     (self', w)).1 = Raise missing.
Proof.
  intros w self self' missing. split; [reflexivity|].
  destruct (scope_open_failure_skips_body memdb.MemDB _ w self self'
              (lancedb.insert_embeddings scenario.embeddings scenario.metadata)
              (lancedb_cloud.insert_embeddings scenario.embeddings scenario.metadata)
              () () missing missing (store w) (store w) (store w) (store w)
              eq_refl eq_refl eq_refl eq_refl) as (Hl & Hc).
  rewrite Hl, Hc. split; reflexivity.
Defined.

(** X8.  A block that ends normally leaves [self.tbl] unbound, whatever
    the block did to it, and returns what the block returned; the
    statements after the [yield] make no call to the store. *)
Theorem scope_exit_unbinds_handle (C : Collaborator) (A : Type)
    (body : lancedb.M (C:=C) A) (body' : lancedb_cloud.M (C:=C) A)
    (s s1 s2 : lancedb.LanceDB C * World C)
    (s' s1' s2' : lancedb_cloud.LanceDBCloud C * World C) (a a' : A) :
  before_yield lancedb.init s = (Ok (), s1) → body s1 = (Ok a, s2) →
  before_yield lancedb_cloud.init s' = (Ok (), s1') → body' s1' = (Ok a', s2') →
  with_ lancedb.init body s = (Ok a, (lancedb.with_tbl s2.1 Unbound, s2.2)) ∧
  with_ lancedb_cloud.init body' s' = (Ok a', (lancedb_cloud.with_tbl s2'.1 Unbound, s2'.2)).
Proof.
  intros He Hb He' Hb'. split.
  - rewrite (with_body_returns lancedb.init body s () s1 a s2 He Hb).
    now rewrite lancedb_init_exit.
  - rewrite (with_body_returns lancedb_cloud.init body' s' () s1' a' s2' He' Hb').
    now rewrite cloud_init_exit.
Qed.

Lemma scope_exit_unbinds_handle_witness :
  let s := (scenario.local_adapter Unbound, scenario.fresh None) in
  let s' := (scenario.cloud_adapter Unbound, scenario.fresh None) in
  let inside := (before_yield lancedb.init s).2 in
  let inside' := (before_yield lancedb_cloud.init s').2 in
  (before_yield lancedb.init s = (Ok (), inside) ∧
   lancedb.ready_to_search inside = (Ok (), inside) ∧
   before_yield lancedb_cloud.init s' = (Ok (), inside') ∧
   lancedb_cloud.ready_to_search inside' = (Ok (), inside')) ∧
  lancedb.tbl (with_ lancedb.init lancedb.ready_to_search s).2.1 = Unbound ∧
  lancedb_cloud.tbl (with_ lancedb_cloud.init lancedb_cloud.ready_to_search s').2.1 = Unbound.
Proof.
  intros s s' inside inside'. split; [repeat apply conj; reflexivity|].
  destruct (scope_exit_unbinds_handle memdb.MemDB unit
              lancedb.ready_to_search lancedb_cloud.ready_to_search
              s inside inside s' inside' inside' () ()
              eq_refl eq_refl eq_refl eq_refl) as (Hl & Hc).
  rewrite Hl, Hc. split; reflexivity.
Defined.

(** X9.  After a block that ended normally, and so also after a block
    nested in another one, every operation raises the [AttributeError] of
    reading [self.tbl] and makes no call, until a scope is entered again. *)
Theorem operations_after_scope_fail (C : Collaborator) (A : Type)
    (body : lancedb.M (C:=C) A) (body' : lancedb_cloud.M (C:=C) A)
    (s s2 : lancedb.LanceDB C * World C)
    (s' s2' : lancedb_cloud.LanceDBCloud C * World C) (a a' : A)
    (query : list float) (k : Z) (filters : option (gmap string PyVal))
    (embeddings : list (list float)) (metadata : list Z) :
  with_ lancedb.init body s = (Ok a, s2) →
  with_ lancedb_cloud.init body' s' = (Ok a', s2') →
  (lancedb.search_embedding query k filters s2 = (Raise (no_attribute "LanceDB" "tbl"), s2) ∧
   lancedb.insert_embeddings embeddings metadata s2
     = (Raise (no_attribute "LanceDB" "tbl"), s2) ∧
   lancedb.optimize s2 = (Raise (no_attribute "LanceDB" "tbl"), s2)) ∧
  (lancedb_cloud.search_embedding query k filters s2'
     = (Raise (no_attribute "LanceDBCloud" "tbl"), s2') ∧
   lancedb_cloud.insert_embeddings embeddings metadata s2'
     = (Raise (no_attribute "LanceDBCloud" "tbl"), s2') ∧
   (lancedb_cloud.optimize s2').1 = Raise (no_attribute "LanceDBCloud" "tbl") ∧
   calls (lancedb_cloud.optimize s2').2.2 = calls s2'.2).
Proof.
  intros H H'.
  pose proof (lancedb_with_released_on_return body s a s2 H) as Ht.
  pose proof (cloud_with_released_on_return body' s' a' s2' H') as Ht'.
  destruct s2 as [self w], s2' as [self' w']. simpl in Ht, Ht'. split.
  - split; [|split].
    + now apply lancedb_search_unbound.
    + now apply lancedb_insert_unbound.
    + now apply lancedb_optimize_unbound.
  - split; [|split; [|split]].
    + now apply cloud_search_unbound.
    + now apply cloud_insert_unbound.
    + now rewrite cloud_optimize_unbound.
    + now rewrite cloud_optimize_unbound.
Qed.

Lemma operations_after_scope_fail_witness :
  let s := (scenario.local_adapter Unbound, scenario.fresh None) in
  let s' := (scenario.cloud_adapter Unbound, scenario.fresh None) in
  let nested := with_ lancedb.init (with_ lancedb.init lancedb.ready_to_load;;
                                    lancedb.search_embedding scenario.query 1 None) s in
  ((with_ lancedb.init lancedb.ready_to_load s).1 = Ok () ∧
   (with_ lancedb_cloud.init lancedb_cloud.ready_to_load s').1 = Ok ()) ∧
  (lancedb.optimize (with_ lancedb.init lancedb.ready_to_load s).2).1
    = Raise (no_attribute "LanceDB" "tbl") ∧
  nested.1 = Raise (no_attribute "LanceDB" "tbl").
Proof.
  intros s s' nested. split; [split; reflexivity|].
  destruct (operations_after_scope_fail memdb.MemDB unit
              lancedb.ready_to_load lancedb_cloud.ready_to_load
              s (with_ lancedb.init lancedb.ready_to_load s).2
              s' (with_ lancedb_cloud.init lancedb_cloud.ready_to_load s').2 () ()
              scenario.query 1 None scenario.embeddings scenario.metadata
              eq_refl eq_refl) as ((_ & _ & Ho) & _).
  rewrite Ho. split; reflexivity.
Defined.

(** ** Configuration *)

(** X10.  In both configuration classes [index_param()] and
    [search_param()] carry the same metric token, and it is one of "L2",
    "dot" and "cosine": an index build and the queries that follow it use
    the same metric. *)
Theorem metric_token_shared (cfg : lancedb.LanceDBIndexConfig)
    (cfg' : lancedb_cloud.LanceDBCloudIndexConfig) :
  (dict_get (lancedb.index_param cfg) "metric" = dict_get (lancedb.search_param cfg) "metric" ∧
   dict_get (lancedb.index_param cfg) "metric" ∈ [VStr "L2"; VStr "dot"; VStr "cosine"]) ∧
  (dict_get (lancedb_cloud.index_param cfg') "metric"
     = dict_get (lancedb_cloud.search_param cfg') "metric" ∧
   dict_get (lancedb_cloud.index_param cfg') "metric"
     ∈ [VStr "L2"; VStr "dot"; VStr "cosine"]).
Proof.
  split; (split; [reflexivity|]).
  - change (dict_get (lancedb.index_param cfg) "metric") with (VStr (lancedb.parse_metric cfg)).
    unfold lancedb.parse_metric. repeat case_bool_decide; set_solver.
  - change (dict_get (lancedb_cloud.index_param cfg') "metric")
      with (VStr (lancedb_cloud.parse_metric cfg')).
    unfold lancedb_cloud.parse_metric. repeat case_bool_decide; set_solver.
Qed.

(** X11.  The parameter dictionaries have fixed key sets, also when a
    numeric setting is [None] (the key is then present with value [None]):
    metric, num_partitions and num_sub_vectors for [index_param()]; metric,
    nprobes and refine_factor for the local [search_param()]; metric and
    nprobes only for the cloud [search_param()]. *)
Theorem param_dictionaries_keys (cfg : lancedb.LanceDBIndexConfig)
    (cfg' : lancedb_cloud.LanceDBCloudIndexConfig) :
  dom (lancedb.index_param cfg) = ({["metric"; "num_partitions"; "num_sub_vectors"]} : gset string) ∧
  dom (lancedb.search_param cfg) = ({["metric"; "nprobes"; "refine_factor"]} : gset string) ∧
  dom (lancedb_cloud.index_param cfg')
    = ({["metric"; "num_partitions"; "num_sub_vectors"]} : gset string) ∧
  dom (lancedb_cloud.search_param cfg') = ({["metric"; "nprobes"]} : gset string).
Proof.
  unfold lancedb.index_param, lancedb.search_param, lancedb_cloud.index_param,
    lancedb_cloud.search_param.
  repeat split; rewrite !dom_insert_L, dom_empty_L; set_solver.
Qed.

(** X12.  [to_dict] loses nothing: two connection configurations that
    give the same dictionary are the same configuration, for the local and
    for the cloud class. *)
Theorem to_dict_injective (c1 c2 : lancedb.LanceDBConfig)
    (c1' c2' : lancedb_cloud.LanceDBCloudConfig) :
  lancedb.to_dict c1 = lancedb.to_dict c2 →
  lancedb_cloud.to_dict c1' = lancedb_cloud.to_dict c2' →
  c1 = c2 ∧ c1' = c2'.
Proof.
  intros H H'. split.
  - assert (Hu : dict_get (lancedb.to_dict c1) "uri" = dict_get (lancedb.to_dict c2) "uri")
      by now rewrite H.
    change (VStr (lancedb.uri c1) = VStr (lancedb.uri c2)) in Hu.
    destruct c1, c2; simpl in Hu. congruence.
  - assert (Hu : dict_get (lancedb_cloud.to_dict c1') "uri"
                 = dict_get (lancedb_cloud.to_dict c2') "uri") by now rewrite H'.
    assert (Hk : dict_get (lancedb_cloud.to_dict c1') "api_key"
                 = dict_get (lancedb_cloud.to_dict c2') "api_key") by now rewrite H'.
    assert (Hr : dict_get (lancedb_cloud.to_dict c1') "region"
                 = dict_get (lancedb_cloud.to_dict c2') "region") by now rewrite H'.
    change (VStr (lancedb_cloud.uri c1') = VStr (lancedb_cloud.uri c2')) in Hu.
    change (VStr (lancedb_cloud.api_key c1') = VStr (lancedb_cloud.api_key c2')) in Hk.
    change (VStr (lancedb_cloud.region c1') = VStr (lancedb_cloud.region c2')) in Hr.
    destruct c1', c2'; simpl in *. congruence.
Qed.

Lemma to_dict_injective_witness :
  let c := {| lancedb_cloud.uri := "db://test"; lancedb_cloud.api_key := "sk-test";
              lancedb_cloud.region := "us-east-1" |} in
  let d := {| lancedb.uri := "data/vector-lancedb" |} in
  (lancedb.to_dict d = scenario.local_config ∧ lancedb_cloud.to_dict c = scenario.cloud_config) ∧
  d = lancedb.LanceDBConfig_default ∧ c = c.
Proof.
  intros c d. split; [split; reflexivity|].
  exact (to_dict_injective d lancedb.LanceDBConfig_default c c eq_refl eq_refl).
Defined.

(** X13.  The connection settings reach the store as [to_dict] wrote them:
    the first call of either constructor is [connect] with the uri, and
    for the cloud adapter the api key and the region as keyword arguments.
    A setting missing from the dictionary is passed as [None]. *)
Theorem init_connects_with_settings (C : Collaborator) (dim : Z) (name : string)
    (drop_old : bool) (w : World C) (cc : option lancedb.LanceDBIndexConfig)
    (cc' : option lancedb_cloud.LanceDBCloudIndexConfig)
    (c : lancedb.LanceDBConfig) (c' : lancedb_cloud.LanceDBCloudConfig) :
  (∃ rest, calls (lancedb.__init__ dim (lancedb.to_dict c) cc name drop_old w).2
           = (calls w ++ CConnect (VStr (lancedb.uri c)) [] :: rest)%list) ∧
  (∃ rest, calls (lancedb_cloud.__init__ dim (lancedb_cloud.to_dict c') cc' name drop_old w).2
           = (calls w ++ CConnect (VStr (lancedb_cloud.uri c'))
                           [("api_key", VStr (lancedb_cloud.api_key c'));
                            ("region", VStr (lancedb_cloud.region c'))] :: rest)%list) ∧
  (∃ rest, calls (lancedb.__init__ dim ∅ cc name drop_old w).2
           = (calls w ++ CConnect VNone [] :: rest)%list) ∧
  (∃ rest, calls (lancedb_cloud.__init__ dim ∅ cc' name drop_old w).2
           = (calls w ++ CConnect VNone [("api_key", VNone); ("region", VNone)] :: rest)%list).
Proof.
  repeat apply conj.
  all: unfold lancedb.__init__, lancedb_cloud.__init__; se_unfold.
  all: change (dict_get (lancedb.to_dict c) "uri") with (VStr (lancedb.uri c)).
  all: change (dict_get (lancedb_cloud.to_dict c') "uri") with (VStr (lancedb_cloud.uri c')).
  all: change (lancedb_cloud.connect_kwargs (lancedb_cloud.to_dict c'))
         with [("api_key", VStr (lancedb_cloud.api_key c'));
               ("region", VStr (lancedb_cloud.region c'))].
  all: change (dict_get ∅ "uri") with VNone.
  all: change (lancedb_cloud.connect_kwargs ∅) with [("api_key", VNone); ("region", VNone)].
  all: destruct drop_old; split_answers C.
  all: eexists; rewrite <- ?app_assoc; reflexivity.
Qed.

(** ** Operations inside a scope *)

(** X14.  The batch handed to [tbl.add] has one record per pair of
    [zip(embeddings, metadata)], in order: the record at a position holds
    the embedding of that position under the vector field and the id of
    that position under the scalar field, and has no other key.  This needs
    the two field names to differ, as they do on every constructed
    object. *)
Theorem records_pair_by_position (C : Collaborator)
    (self : lancedb.LanceDB C) (self' : lancedb_cloud.LanceDBCloud C)
    (embeddings : list (list float)) (metadata : list Z)
    (i : nat) (e : list float) (m : Z) :
  lancedb._scalar_field self ≠ lancedb._vector_field self →
  lancedb_cloud._scalar_field self' ≠ lancedb_cloud._vector_field self' →
  embeddings !! i = Some e → metadata !! i = Some m →
  (length (lancedb.records self embeddings metadata)
     = Nat.min (length embeddings) (length metadata) ∧
   ∃ r, lancedb.records self embeddings metadata !! i = Some r ∧
        r !! lancedb._vector_field self = Some (CVector e) ∧
        r !! lancedb._scalar_field self = Some (CInt m) ∧
        dom r = ({[lancedb._scalar_field self; lancedb._vector_field self]} : gset string)) ∧
  (length (lancedb_cloud.records self' embeddings metadata)
     = Nat.min (length embeddings) (length metadata) ∧
   ∃ r, lancedb_cloud.records self' embeddings metadata !! i = Some r ∧
        r !! lancedb_cloud._vector_field self' = Some (CVector e) ∧
        r !! lancedb_cloud._scalar_field self' = Some (CInt m) ∧
        dom r = ({[lancedb_cloud._scalar_field self'; lancedb_cloud._vector_field self']}
                 : gset string)).
Proof.
  intros Hne Hne' He Hm.
  assert (Hz : zip embeddings metadata !! i = Some (e, m)).
  { apply lookup_zip_with_Some. eauto. }
  split.
  - unfold lancedb.records. split.
    + now rewrite length_fmap, length_zip_with.
    + eexists. split; [rewrite list_lookup_fmap, Hz; reflexivity|]. simpl.
      split; [|split].
      * rewrite lookup_insert_ne by done. apply lookup_insert_eq.
      * apply lookup_insert_eq.
      * now rewrite !dom_insert_L, dom_empty_L, (right_id_L ∅ (∪)).
  - unfold lancedb_cloud.records. split.
    + now rewrite length_fmap, length_zip_with.
    + eexists. split; [rewrite list_lookup_fmap, Hz; reflexivity|]. simpl.
      split; [|split].
      * rewrite lookup_insert_ne by done. apply lookup_insert_eq.
      * apply lookup_insert_eq.
      * now rewrite !dom_insert_L, dom_empty_L, (right_id_L ∅ (∪)).
Qed.

Lemma records_pair_by_position_witness :
  let self := scenario.local_adapter Unbound in
  let self' := scenario.cloud_adapter Unbound in
  (lancedb._scalar_field self ≠ lancedb._vector_field self ∧
   lancedb_cloud._scalar_field self' ≠ lancedb_cloud._vector_field self' ∧
   scenario.embeddings !! 0%nat = Some scenario.query ∧
   scenario.metadata !! 0%nat = Some 1) ∧
  length (lancedb.records self scenario.embeddings scenario.metadata) = 2%nat ∧
  length (lancedb_cloud.records self' scenario.embeddings scenario.metadata) = 2%nat.
Proof.
  intros self self'.
  assert (Hne : lancedb._scalar_field self ≠ lancedb._vector_field self) by discriminate.
  assert (Hne' : lancedb_cloud._scalar_field self' ≠ lancedb_cloud._vector_field self')
    by discriminate.
  split; [repeat apply conj; try assumption; reflexivity|].
  destruct (records_pair_by_position memdb.MemDB self self' scenario.embeddings
              scenario.metadata 0 scenario.query 1 Hne Hne' eq_refl eq_refl) as ((Hl & _) & (Hc & _)).
  split; [exact Hl | exact Hc].
Defined.

(** X15.  An empty batch is not short-cut: inside an open scope
    [insert_embeddings([], [])] still calls [tbl.add] once, with no record,
    and returns a count of 0 either way, with the raised exception if the
    call fails and with [None] if it succeeds. *)
Theorem insert_embeddings_empty_batch (C : Collaborator) (w : World C)
    (self : lancedb.LanceDB C) (h : Table C)
    (self' : lancedb_cloud.LanceDBCloud C) (h' : Table C) :
  lancedb.tbl self = Bound (Some h) → lancedb_cloud.tbl self' = Bound (Some h') →
  (let '(r, st) := add C h [] (store w) in
   let out := lancedb.insert_embeddings [] [] (self, w) in
   out.1 = Ok (0, match r with Ok _ => None | Raise e => Some e end) ∧
   calls out.2.2 = (calls w ++ [CAdd []])%list ∧ store out.2.2 = st) ∧
  (let '(r, st) := add C h' [] (store w) in
   let out := lancedb_cloud.insert_embeddings [] [] (self', w) in
   out.1 = Ok (0, match r with Ok _ => None | Raise e => Some e end) ∧
   calls out.2.2 = (calls w ++ [CAdd []])%list ∧ store out.2.2 = st).
Proof.
  intros Ht Ht'. split.
  - rewrite (lancedb_insert_open self w h [] [] Ht eq_refl). cbv zeta.
    change (lancedb.records self [] []) with (@nil (gmap string Cell)).
    now destruct (add C h [] (store w)) as [[[]|e] st].
  - rewrite (cloud_insert_open self' w h' [] [] Ht' eq_refl). cbv zeta.
    change (lancedb_cloud.records self' [] []) with (@nil (gmap string Cell)).
    now destruct (add C h' [] (store w)) as [[[]|e] st].
Qed.

Lemma insert_embeddings_empty_batch_witness :
  let self := scenario.local_adapter (Bound (Some scenario.name)) in
  let self' := scenario.cloud_adapter (Bound (Some scenario.name)) in
  let w := scenario.fresh (Some scenario.disk_full) in
  (lancedb.tbl self = Bound (Some scenario.name) ∧
   lancedb_cloud.tbl self' = Bound (Some scenario.name)) ∧
  (lancedb.insert_embeddings [] [] (self, w)).1 = Ok (0, Some scenario.disk_full) ∧
  (lancedb_cloud.insert_embeddings [] [] (self', w)).1 = Ok (0, Some scenario.disk_full).
Proof.
  intros self self' w. split; [split; reflexivity|].
  destruct (insert_embeddings_empty_batch memdb.MemDB w self scenario.name self' scenario.name
              eq_refl eq_refl) as (Hl & Hc).
  split; [exact (proj1 Hl) | exact (proj1 Hc)].
Defined.

(** X16.  Inside an open scope a search submits exactly one query, for the
    chain its filters select, and has no handler: an exception of the query
    is raised to the caller, and so is the failure to read the scalar
    column from the answer.  The object is not changed and nothing is
    printed or logged. *)
Theorem search_embedding_submits_one_query (C : Collaborator) (w : World C)
    (self : lancedb.LanceDB C) (h : Table C) (cfg : lancedb.LanceDBIndexConfig)
    (self' : lancedb_cloud.LanceDBCloud C) (h' : Table C)
    (cfg' : lancedb_cloud.LanceDBCloudIndexConfig)
    (query : list float) (k : Z) (filters : option (gmap string PyVal)) :
  lancedb.tbl self = Bound (Some h) → lancedb.case_config self = Some cfg →
  lancedb_cloud.tbl self' = Bound (Some h') → lancedb_cloud.case_config self' = Some cfg' →
  let steps := lancedb_search_steps cfg k (lancedb._scalar_field self) filters in
  let steps' := cloud_search_steps cfg' k (lancedb_cloud._scalar_field self') filters in
  (let '(r, st) := to_arrow C h query steps (store w) in
   lancedb.search_embedding query k filters (self, w) =
     (match r with
      | Ok res => column_to_pylist C res (lancedb._scalar_field self)
      | Raise e => Raise e
      end,
      (self, {| store := st; calls := calls w ++ [CToArrow query steps];
                stdout := stdout w; log_info := log_info w |}))) ∧
  (let '(r, st) := to_arrow C h' query steps' (store w) in
   lancedb_cloud.search_embedding query k filters (self', w) =
     (match r with
      | Ok res => column_to_pylist C res (lancedb_cloud._scalar_field self')
      | Raise e => Raise e
      end,
      (self', {| store := st; calls := calls w ++ [CToArrow query steps'];
                 stdout := stdout w; log_info := log_info w |}))).
Proof.
  intros Ht Hc Ht' Hc' steps steps'. subst steps steps'.
  unfold lancedb_search_steps, cloud_search_steps.
  destruct (truthy filters) eqn:Hf.
  - destruct filters as [d|]; [|discriminate]. simpl in Hf.
    assert (Hd : d ≠ ∅) by (intros ->; discriminate).
    rewrite (lancedb_search_filtered self w h cfg query k d Ht Hc Hd).
    rewrite (cloud_search_filtered self' w h' cfg' query k d Ht' Hc' Hd).
    unfold run_query. simpl. split.
    + now destruct (to_arrow C h query _ (store w)).
    + now destruct (to_arrow C h' query _ (store w)).
  - rewrite (lancedb_search_unfiltered self w h cfg query k filters Ht Hc Hf).
    rewrite (cloud_search_unfiltered self' w h' cfg' query k filters Ht' Hc' Hf).
    unfold run_query. split.
    + now destruct (to_arrow C h query _ (store w)).
    + now destruct (to_arrow C h' query _ (store w)).
Qed.

Lemma search_embedding_submits_one_query_witness :
  let self := scenario.local_adapter (Bound (Some "dropped")) in
  let self' := scenario.cloud_adapter (Bound (Some "dropped")) in
  let w := scenario.fresh None in
  (lancedb.tbl self = Bound (Some "dropped") ∧
   lancedb.case_config self = Some lancedb.LanceDBIndexConfig_default ∧
   lancedb_cloud.tbl self' = Bound (Some "dropped") ∧
   lancedb_cloud.case_config self' = Some lancedb_cloud.LanceDBCloudIndexConfig_default) ∧
  lancedb.search_embedding scenario.query 1 None (self, w) =
    (Raise (memdb.not_found "dropped"),
     (self, Build_World memdb.MemDB (scenario.loaded None)
              [CToArrow scenario.query
                 [QMetric (VStr "cosine"); QNprobes (VInt 0); QRefineFactor (VInt 0);
                  QLimit 1; QSelect ["id"]]] [] [])) ∧
  lancedb_cloud.search_embedding scenario.query 1 None (self', w) =
    (Raise (memdb.not_found "dropped"),
     (self', Build_World memdb.MemDB (scenario.loaded None)
               [CToArrow scenario.query [QMetric (VStr "cosine"); QLimit 1; QSelect ["id"]]]
               [] [])).
Proof.
  intros self self' w. split; [repeat apply conj; reflexivity|].
  exact (search_embedding_submits_one_query memdb.MemDB w self "dropped"
           lancedb.LanceDBIndexConfig_default self' "dropped"
           lancedb_cloud.LanceDBCloudIndexConfig_default scenario.query 1 None
           eq_refl eq_refl eq_refl eq_refl).
Defined.

(** X17.  Of a non-empty [filters] dictionary a search reads the entry
    "metadata" and nothing else: two non-empty dictionaries with the same
    entry (or both without one) give the same search in every state. *)
Theorem filtered_search_reads_only_metadata (C : Collaborator)
    (s : lancedb.LanceDB C * World C) (s' : lancedb_cloud.LanceDBCloud C * World C)
    (query : list float) (k : Z) (d1 d2 : gmap string PyVal) :
  d1 ≠ ∅ → d2 ≠ ∅ → d1 !! "metadata" = d2 !! "metadata" →
  lancedb.search_embedding query k (Some d1) s = lancedb.search_embedding query k (Some d2) s ∧
  lancedb_cloud.search_embedding query k (Some d1) s'
    = lancedb_cloud.search_embedding query k (Some d2) s'.
Proof.
  intros H1 H2 Hm.
  unfold lancedb.search_embedding, lancedb_cloud.search_embedding.
  rewrite !truthy_nonempty by done. simpl. unfold dict_get. now rewrite Hm.
Qed.

Lemma filtered_search_reads_only_metadata_witness :
  let d1 : gmap string PyVal := <[ "id" := VInt 1 ]> {[ "metadata" := VStr ">=1" ]} in
  let d2 : gmap string PyVal := {[ "metadata" := VStr ">=1" ]} in
  let s := (scenario.local_adapter (Bound (Some scenario.name)), scenario.fresh None) in
  let s' := (scenario.cloud_adapter (Bound (Some scenario.name)), scenario.fresh None) in
  (d1 ≠ ∅ ∧ d2 ≠ ∅ ∧ d1 !! "metadata" = d2 !! "metadata") ∧
  lancedb.search_embedding scenario.query 2 (Some d1) s
    = lancedb.search_embedding scenario.query 2 (Some d2) s ∧
  lancedb_cloud.search_embedding scenario.query 2 (Some d1) s'
    = lancedb_cloud.search_embedding scenario.query 2 (Some d2) s'.
Proof.
  intros d1 d2 s s'.
  assert (H1 : d1 ≠ ∅) by (intros H; discriminate H).
  assert (H2 : d2 ≠ ∅) by (intros H; discriminate H).
  split; [repeat apply conj; try assumption; reflexivity|].
  exact (filtered_search_reads_only_metadata memdb.MemDB s s' scenario.query 2 d1 d2
           H1 H2 eq_refl).
Defined.

(** X18.  A non-empty [filters] dictionary without the entry "metadata"
    still takes the filtered branch: inside an open scope the query carries
    the predicate made of the scalar field name and the text "None". *)
Theorem filtered_search_without_metadata (C : Collaborator) (w : World C)
    (self : lancedb.LanceDB C) (h : Table C) (cfg : lancedb.LanceDBIndexConfig)
    (self' : lancedb_cloud.LanceDBCloud C) (h' : Table C)
    (cfg' : lancedb_cloud.LanceDBCloudIndexConfig)
    (query : list float) (k : Z) (d : gmap string PyVal) :
  lancedb.tbl self = Bound (Some h) → lancedb.case_config self = Some cfg →
  lancedb_cloud.tbl self' = Bound (Some h') → lancedb_cloud.case_config self' = Some cfg' →
  d ≠ ∅ → d !! "metadata" = None →
  lancedb.search_embedding query k (Some d) (self, w) =
    run_query self w h query
      [ QMetric (VStr (lancedb.parse_metric cfg)); QLimit k;
        QSelect [lancedb._scalar_field self];
        QWhere (lancedb._scalar_field self +:+ " None") ]
      (lancedb._scalar_field self) ∧
  lancedb_cloud.search_embedding query k (Some d) (self', w) =
    run_query self' w h' query
      [ QMetric (VStr (lancedb_cloud.parse_metric cfg')); QLimit k;
        QSelect [lancedb_cloud._scalar_field self'];
        QWhere (lancedb_cloud._scalar_field self' +:+ " None") ]
      (lancedb_cloud._scalar_field self').
Proof.
  intros Ht Hc Ht' Hc' Hd Hm.
  rewrite (lancedb_search_filtered self w h cfg query k d Ht Hc Hd).
  rewrite (cloud_search_filtered self' w h' cfg' query k d Ht' Hc' Hd).
  unfold lancedb.filtered_steps, lancedb_cloud.filtered_steps.
  unfold dict_get at 2 4. rewrite Hm. simpl. split; reflexivity.
Qed.

Lemma filtered_search_without_metadata_witness :
  let d : gmap string PyVal := {[ "id" := VInt 1 ]} in
  let self := scenario.local_adapter (Bound (Some scenario.name)) in
  let self' := scenario.cloud_adapter (Bound (Some scenario.name)) in
  let w := scenario.fresh None in
  (lancedb.tbl self = Bound (Some scenario.name) ∧
   lancedb.case_config self = Some lancedb.LanceDBIndexConfig_default ∧
   lancedb_cloud.tbl self' = Bound (Some scenario.name) ∧
   lancedb_cloud.case_config self' = Some lancedb_cloud.LanceDBCloudIndexConfig_default ∧
   d ≠ ∅ ∧ d !! "metadata" = None) ∧
  calls (lancedb.search_embedding scenario.query 2 (Some d) (self, w)).2.2 =
    [ CToArrow scenario.query
        [QMetric (VStr "cosine"); QLimit 2; QSelect ["id"]; QWhere "id None"] ] ∧
  calls (lancedb_cloud.search_embedding scenario.query 2 (Some d) (self', w)).2.2 =
    [ CToArrow scenario.query
        [QMetric (VStr "cosine"); QLimit 2; QSelect ["id"]; QWhere "id None"] ].
Proof.
  intros d self self' w.
  assert (Hd : d ≠ ∅) by (intros H; discriminate H).
  split; [repeat apply conj; try assumption; reflexivity|].
  destruct (filtered_search_without_metadata memdb.MemDB w self scenario.name
              lancedb.LanceDBIndexConfig_default self' scenario.name
              lancedb_cloud.LanceDBCloudIndexConfig_default scenario.query 2 d
              eq_refl eq_refl eq_refl eq_refl Hd eq_refl) as (Hl & Hc).
  rewrite Hl, Hc. split; reflexivity.
Defined.



(** X20.  A batch insert run as the body of a scope never leaks the
    handle: once the scope is entered, [insert_embeddings] with as many ids
    as embeddings returns a pair whether or not the store accepts the
    batch, so the block ends normally and [self.tbl] is unbound again. *)
Theorem insert_in_scope_releases_handle (C : Collaborator) (w : World C)
    (self : lancedb.LanceDB C) (self' : lancedb_cloud.LanceDBCloud C)
    (db db' : Conn C) (t t' : Table C) (st1 st2 st1' st2' : Store C)
    (embeddings : list (list float)) (metadata : list Z) :
  let uri := dict_get (lancedb.db_config self) "uri" in
  let uri' := dict_get (lancedb_cloud.db_config self') "uri" in
  let kwargs := lancedb_cloud.connect_kwargs (lancedb_cloud.db_config self') in
  connect C uri [] (store w) = (Ok db, st1) →
  open_table C db (lancedb.collection_name self) st1 = (Ok t, st2) →
  connect C uri' kwargs (store w) = (Ok db', st1') →
  open_table C db' (lancedb_cloud.collection_name self') st1' = (Ok t', st2') →
  length embeddings = length metadata →
  let out := with_ lancedb.init (lancedb.insert_embeddings embeddings metadata) (self, w) in
  let out' := with_ lancedb_cloud.init
                (lancedb_cloud.insert_embeddings embeddings metadata) (self', w) in
  ((out.1 = Ok (Z.of_nat (length embeddings), None) ∨ ∃ e, out.1 = Ok (0, Some e)) ∧
   lancedb.tbl out.2.1 = Unbound) ∧
  ((out'.1 = Ok (Z.of_nat (length embeddings), None) ∨ ∃ e, out'.1 = Ok (0, Some e)) ∧
   lancedb_cloud.tbl out'.2.1 = Unbound).
Proof.
  intros uri uri' kwargs Hc Ho Hc' Ho' Hlen out out'. subst out out'. split.
  - pose proof (lancedb_init_enter self w db st1 t st2 Hc Ho) as He.
    unfold with_. rewrite He.
    rewrite (lancedb_insert_open (lancedb.with_tbl self (Bound (Some t))) _ t
               embeddings metadata eq_refl Hlen). cbv zeta.
    destruct (add C t _ _) as [[[]|e] st3]; rewrite lancedb_init_exit; simpl; eauto.
  - pose proof (cloud_init_enter self' w db' st1' t' st2' Hc' Ho') as He.
    unfold with_. rewrite He.
    rewrite (cloud_insert_open (lancedb_cloud.with_tbl self' (Bound (Some t'))) _ t'
               embeddings metadata eq_refl Hlen). cbv zeta.
    destruct (add C t' _ _) as [[[]|e] st3]; rewrite cloud_init_exit; simpl; eauto.
Qed.

Lemma insert_in_scope_releases_handle_witness :
  let w := scenario.fresh (Some scenario.disk_full) in
  let self := scenario.local_adapter Unbound in
  let self' := scenario.cloud_adapter Unbound in
  (open_table memdb.MemDB () scenario.name (store w) = (Ok scenario.name, store w) ∧
   length scenario.embeddings = length scenario.metadata) ∧
  lancedb.tbl (with_ lancedb.init
                 (lancedb.insert_embeddings scenario.embeddings scenario.metadata)
                 (self, w)).2.1 = Unbound ∧
  lancedb_cloud.tbl (with_ lancedb_cloud.init
                       (lancedb_cloud.insert_embeddings scenario.embeddings scenario.metadata)
                       (self', w)).2.1 = Unbound.
Proof.
  intros w self self'. split; [split; reflexivity|].
  destruct (insert_in_scope_releases_handle memdb.MemDB w self self' () ()
              scenario.name scenario.name (store w) (store w) (store w) (store w)
              scenario.embeddings scenario.metadata
              eq_refl eq_refl eq_refl eq_refl eq_refl) as ((_ & Hl) & (_ & Hc)).
  split; [exact Hl | exact Hc].
Defined.
